(** * dbt-datahub-governance: the rule engine, the report and the URN mapper

    A shallow embedding of the Python package [dbt_datahub_governance]
    (models/governance.py, models/dbt_models.py, datahub/urn_mapper.py,
    datahub/client.py, rules/base.py, rules/builtin.py, rules/engine.py)
    and the properties of its specification that concern them.

    Conventions of the embedding
    - Python [str] is [string]; case mapping ([str.upper], [str.lower]) is the
      ASCII one, characters outside [a-z]/[A-Z] are left as they are.
    - Python [int] is [Z].
    - A [dict] is an association list in insertion order ([dict_get],
      [dict_set]); a [set] of strings is a [gset string].
    - A call that may raise returns a [result]; the exception is represented
      by its text ([str(e)]). *)

From Stdlib Require Import ZArith Ascii String List Bool Lia.
From Stdlib Require DecimalString.
From stdpp Require Import base gmap sets list strings.

Local Open Scope Z_scope.

(* ===================================================================== *)
(** * Part I: definitions *)
(* ===================================================================== *)

(** ** Python strings *)

Module Str.

Definition is_lower (c : ascii) : bool :=
  let n := N_of_ascii c in (97 <=? n)%N && (n <=? 122)%N.

Definition is_upper (c : ascii) : bool :=
  let n := N_of_ascii c in (65 <=? n)%N && (n <=? 90)%N.

Definition to_upper (c : ascii) : ascii :=
  if is_lower c then ascii_of_N (N_of_ascii c - 32) else c.

Definition to_lower (c : ascii) : ascii :=
  if is_upper c then ascii_of_N (N_of_ascii c + 32) else c.

Fixpoint map (f : ascii → ascii) (s : string) : string :=
  match s with
  | EmptyString => EmptyString
  | String c s' => String (f c) (map f s')
  end.

(** [s.upper()] and [s.lower()] *)
Definition upper : string → string := map to_upper.
Definition lower : string → string := map to_lower.

Fixpoint all (p : ascii → bool) (s : string) : bool :=
  match s with
  | EmptyString => true
  | String c s' => p c && all p s'
  end.

(** No cased character of [s] is lowercase (resp. uppercase). *)
Definition no_lower (s : string) : bool := all (λ c, negb (is_lower c)) s.
Definition no_upper (s : string) : bool := all (λ c, negb (is_upper c)) s.

(** [c not in s], for a character [c] *)
Definition lacks (c : ascii) (s : string) : bool :=
  all (λ a, negb (Ascii.eqb a c)) s.

(** Truthiness of a [str]: [bool(s)] *)
Definition truthy (s : string) : bool :=
  match s with EmptyString => false | _ => true end.

(** [s.startswith(p)], returning the rest of [s] *)
Fixpoint strip_prefix (p s : string) : option string :=
  match p, s with
  | EmptyString, _ => Some s
  | String a p', String b s' =>
      if Ascii.eqb a b then strip_prefix p' s' else None
  | String _ _, EmptyString => None
  end.

(** [sub in s] *)
Fixpoint py_in (sub s : string) : bool :=
  match strip_prefix sub s with
  | Some _ => true
  | None =>
      match s with
      | EmptyString => false
      | String _ s' => py_in sub s'
      end
  end.

(** [sep.join(l)] *)
Fixpoint join (sep : string) (l : list string) : string :=
  match l with
  | [] => ""
  | [x] => x
  | x :: l' => x +:+ sep +:+ join sep l'
  end.

End Str.

(** ** Python values that are not statically typed *)

(** The values found in a [details] bag ([dict[str, Any]]). *)
#[local] Unset Elimination Schemes.
Inductive value : Type :=
  | VNone
  | VBool (b : bool)
  | VInt (n : Z)
  | VStr (s : string)
  | VList (l : list value)
  | VDict (d : list (string * value)).
#[local] Set Elimination Schemes.

(** [Optional[str]] as a value *)
Definition value_of_opt (o : option string) : value :=
  match o with Some s => VStr s | None => VNone end.

(** The outcome of a call that may raise. *)
Inductive result (A : Type) : Type :=
  | Ok (a : A)
  | Raise (e : string).
Arguments Ok {A} a.
Arguments Raise {A} e.

(** ** Dictionaries *)

Section Dict.
Context {V : Type}.

(** [d.get(k)] *)
Fixpoint dict_get (k : string) (d : list (string * V)) : option V :=
  match d with
  | [] => None
  | (k', v) :: d' => if String.eqb k' k then Some v else dict_get k d'
  end.

(** [d[k] = v]: an existing key keeps its place, a new one goes last. *)
Fixpoint dict_set (k : string) (v : V) (d : list (string * V))
  : list (string * V) :=
  match d with
  | [] => [(k, v)]
  | (k', v') :: d' =>
      if String.eqb k' k then (k', v) :: d' else (k', v') :: dict_set k v d'
  end.

(** [d.values()] and [list(d)] *)
Definition dict_values (d : list (string * V)) : list V := List.map snd d.
Definition dict_keys (d : list (string * V)) : list string := List.map fst d.
End Dict.

(** ** models/governance.py *)

Inductive ValidationSeverity : Type := ERROR | WARNING | INFO.

Definition severity_eqb (a b : ValidationSeverity) : bool :=
  match a, b with
  | ERROR, ERROR | WARNING, WARNING | INFO, INFO => true
  | _, _ => false
  end.

Record GovernanceRule : Type := {
  gr_name : string;
  gr_enabled : bool;
  gr_severity : ValidationSeverity;
  gr_description : option string;
  gr_config : list (string * value)
}.

Record GovernanceConfig : Type := {
  rules : list (string * GovernanceRule);
  target_platform : string;
  environment : string;
  cfg_platform_instance : option string;
  fail_on_warnings : bool;
  include_patterns : list string;
  exclude_patterns : list string
}.

Record DatasetGovernanceStatus : Type := {
  urn : string;
  exists_ : bool;
  has_owner : bool;
  has_description : bool;
  has_domain : bool;
  has_tags : bool;
  is_deprecated : bool;
  owners : list string;
  domain : option string;
  tags : list string;
  st_description : option string;
  deprecation_note : option string
}.

(** [DatasetGovernanceStatus(urn=u, exists=e)], the other fields defaulted *)
Definition status_default (u : string) (e : bool) : DatasetGovernanceStatus :=
  {| urn := u; exists_ := e; has_owner := false; has_description := false;
     has_domain := false; has_tags := false; is_deprecated := false;
     owners := []; domain := None; tags := []; st_description := None;
     deprecation_note := None |}.

Record ValidationResult : Type := {
  rule_name : string;
  model_name : string;
  model_unique_id : string;
  passed : bool;
  severity : ValidationSeverity;
  message : string;
  details : list (string * value)
}.

Definition is_error (r : ValidationResult) : bool :=
  negb (passed r) && severity_eqb (severity r) ERROR.

Definition is_warning (r : ValidationResult) : bool :=
  negb (passed r) && severity_eqb (severity r) WARNING.

Record ValidationReport : Type := {
  results : list ValidationResult;
  total_models_checked : Z;
  total_checks : Z;
  errors : Z;
  warnings : Z;
  rep_passed : Z
}.

(** [ValidationReport()] *)
Definition ValidationReport_new : ValidationReport :=
  {| results := []; total_models_checked := 0; total_checks := 0;
     errors := 0; warnings := 0; rep_passed := 0 |}.

Definition add_result (self : ValidationReport) (result : ValidationResult)
  : ValidationReport :=
  let self :=
    {| results := results self ++ [result];
       total_models_checked := total_models_checked self;
       total_checks := total_checks self + 1;
       errors := errors self;
       warnings := warnings self;
       rep_passed := rep_passed self |} in
  if passed result then
    {| results := results self;
       total_models_checked := total_models_checked self;
       total_checks := total_checks self;
       errors := errors self;
       warnings := warnings self;
       rep_passed := rep_passed self + 1 |}
  else if severity_eqb (severity result) ERROR then
    {| results := results self;
       total_models_checked := total_models_checked self;
       total_checks := total_checks self;
       errors := errors self + 1;
       warnings := warnings self;
       rep_passed := rep_passed self |}
  else if severity_eqb (severity result) WARNING then
    {| results := results self;
       total_models_checked := total_models_checked self;
       total_checks := total_checks self;
       errors := errors self;
       warnings := warnings self + 1;
       rep_passed := rep_passed self |}
  else self.

(** [report.total_models_checked = n] *)
Definition set_total_models_checked (n : Z) (self : ValidationReport)
  : ValidationReport :=
  {| results := results self;
     total_models_checked := n;
     total_checks := total_checks self;
     errors := errors self;
     warnings := warnings self;
     rep_passed := rep_passed self |}.

Definition has_errors (self : ValidationReport) : bool := 0 <? errors self.
Definition has_warnings (self : ValidationReport) : bool := 0 <? warnings self.
Definition is_successful (self : ValidationReport) : bool :=
  negb (has_errors self).

(** A report after a sequence of [add_result] calls. *)
Definition add_results (self : ValidationReport) (rs : list ValidationResult)
  : ValidationReport :=
  foldl add_result self rs.

(** ** models/dbt_models.py *)

Record DbtModel : Type := {
  unique_id : string;
  name : string;
  database : option string;
  schema : string;
  description : option string;
  resource_type : string;
  package_name : string;
  path : string;
  original_file_path : string;
  depends_on : list string;
  model_tags : list string;
  meta : list (string * value);
  columns : list (string * list (string * value));
  config : list (string * value)
}.

Record DbtManifest : Type := {
  models : list (string * DbtModel);
  sources : list (string * list (string * value));
  metadata : list (string * value);
  dbt_version : string
}.

Definition get_model (self : DbtManifest) (unique_id : string)
  : option DbtModel :=
  dict_get unique_id (models self).

Definition get_model_by_name (self : DbtManifest) (n : string)
  : option DbtModel :=
  List.find (λ model, String.eqb (name model) n) (dict_values (models self)).

(** ** datahub/urn_mapper.py *)

(** The two functions imported from the DataHub SDK
    ([datahub.emitter.mce_builder]) when it is installed:
    [make_dataset_urn platform name env] and
    [make_dataset_urn_with_platform_instance platform name instance env]. *)
Record MceBuilder : Type := {
  make_dataset_urn : string → string → string → string;
  make_dataset_urn_with_platform_instance :
    string → string → string → string → string
}.

(** What the package takes from outside the repository: Python's
    [fnmatch.fnmatch name pattern], and the DataHub SDK, which is [None]
    when its import raises [ImportError]. *)
Class Environment : Type := {
  fnmatch : string → string → bool;
  mce_builder : option MceBuilder
}.

Definition UPPERCASE_PLATFORMS : list string := ["snowflake"].
Definition LOWERCASE_PLATFORMS : list string := ["postgres"; "mysql"].

(** [x in l] for a list or set of strings *)
Definition str_in (x : string) (l : list string) : bool :=
  existsb (String.eqb x) l.

Record UrnMapper : Type := {
  platform : string;
  env : string;
  platform_instance : option string;
  custom_database : option string;
  custom_schema : option string
}.

(** [UrnMapper.__init__] *)
Definition UrnMapper_init (platform env : string)
    (platform_instance custom_database custom_schema : option string)
  : UrnMapper :=
  {| platform := Str.lower platform;
     env := env;
     platform_instance := platform_instance;
     custom_database := custom_database;
     custom_schema := custom_schema |}.

(** Truthiness of an [Optional[str]] *)
Definition opt_truthy (o : option string) : bool :=
  match o with Some s => Str.truthy s | None => false end.

(** [a or b] on [Optional[str]] operands *)
Definition opt_or (a b : option string) : option string :=
  if opt_truthy a then a else b.

(** [a or s] where [s] is a [str] *)
Definition opt_or_str (a : option string) (s : string) : string :=
  match a with
  | Some x => if Str.truthy x then x else s
  | None => s
  end.

Definition _normalize_name (self : UrnMapper) (n : string) : string :=
  if str_in (platform self) UPPERCASE_PLATFORMS then Str.upper n
  else if str_in (platform self) LOWERCASE_PLATFORMS then Str.lower n
  else n.

Definition get_dataset_name (self : UrnMapper) (model : DbtModel) : string :=
  let database := opt_or_str (opt_or (custom_database self) (database model)) "" in
  let schema := opt_or_str (custom_schema self) (schema model) in
  let name := name model in
  let database :=
    if Str.truthy database then _normalize_name self database else "" in
  let schema := _normalize_name self schema in
  let name := _normalize_name self name in
  if String.eqb (platform self) "bigquery" then
    database +:+ "." +:+ schema +:+ "." +:+ name
  else if str_in (platform self)
            ["snowflake"; "redshift"; "postgres"; "databricks"] then
    if Str.truthy database then database +:+ "." +:+ schema +:+ "." +:+ name
    else schema +:+ "." +:+ name
  else
    if Str.truthy database then database +:+ "." +:+ schema +:+ "." +:+ name
    else schema +:+ "." +:+ name.

Definition _build_urn_manual (self : UrnMapper) (dataset_name : string)
  : string :=
  if opt_truthy (platform_instance self) then
    "urn:li:dataset:(urn:li:dataPlatform:" +:+ platform self +:+ "," +:+
      opt_or_str (platform_instance self) "" +:+ "." +:+ dataset_name +:+
      "," +:+ env self +:+ ")"
  else
    "urn:li:dataset:(urn:li:dataPlatform:" +:+ platform self +:+ "," +:+
      dataset_name +:+ "," +:+ env self +:+ ")".

Definition build_urn `{Environment} (self : UrnMapper) (dataset_name : string)
  : string :=
  match mce_builder with
  | Some sdk =>
      if opt_truthy (platform_instance self) then
        make_dataset_urn_with_platform_instance sdk (platform self)
          dataset_name (opt_or_str (platform_instance self) "") (env self)
      else make_dataset_urn sdk (platform self) dataset_name (env self)
  | None => _build_urn_manual self dataset_name
  end.

Definition model_to_urn `{Environment} (self : UrnMapper) (model : DbtModel)
  : string :=
  let dataset_name := get_dataset_name self model in
  build_urn self dataset_name.

(** *** [re.match] for the pattern of [parse_urn]

    The pattern is a sequence of literals and capturing groups of the form
    [([^c]+)]. Matching is Python's: anchored at the start only, each group
    greedy, giving characters back one at a time when the rest of the
    pattern fails. *)

Inductive re_item : Type :=
  | Lit (s : string)
  | GroupNot (c : ascii).

Section Regex.
Context {R : Type}.

(** [[^c]*] after [acc] has been consumed, then the continuation [k] on
    the text of the group and the rest of the input. *)
Fixpoint star_not (c : ascii) (k : string → string → option R)
    (acc s : string) : option R :=
  match s with
  | EmptyString => k acc s
  | String a s' =>
      if Ascii.eqb a c then k acc s
      else
        match star_not c k (acc +:+ String a "") s' with
        | Some r => Some r
        | None => k acc s
        end
  end.

(** [[^c]+] *)
Definition plus_not (c : ascii) (k : string → string → option R)
    (s : string) : option R :=
  match s with
  | EmptyString => None
  | String a s' =>
      if Ascii.eqb a c then None else star_not c k (String a "") s'
  end.
End Regex.

(** The groups of the match in order, or [None] when there is no match;
    [groups] are the groups captured so far, last first. *)
Fixpoint re_match_from (p : list re_item) (groups : list string) (s : string)
  : option (list string) :=
  match p with
  | [] => Some (rev groups)
  | Lit l :: p' =>
      match Str.strip_prefix l s with
      | Some s' => re_match_from p' groups s'
      | None => None
      end
  | GroupNot c :: p' =>
      plus_not c (λ g rest, re_match_from p' (g :: groups) rest) s
  end.

Definition re_match (p : list re_item) (s : string) : option (list string) :=
  re_match_from p [] s.

(** [r"urn:li:dataset:\(urn:li:dataPlatform:([^,]+),([^,]+),([^)]+)\)"] *)
Definition urn_pattern : list re_item :=
  [ Lit "urn:li:dataset:(urn:li:dataPlatform:";
    GroupNot ","; Lit ","; GroupNot ","; Lit ","; GroupNot ")"; Lit ")" ].

Definition parse_urn (urn : string) : list (string * string) :=
  match re_match urn_pattern urn with
  | Some [g1; g2; g3] => [("platform", g1); ("name", g2); ("env", g3)]
  | _ => [("platform", ""); ("name", ""); ("env", "")]
  end.

(** ** datahub/client.py *)

(** A client is known by its [get_governance_status] method, which the
    subclasses override and which may raise (a connection error). *)
Record DataHubClient : Type := {
  get_governance_status : string → result DatasetGovernanceStatus
}.

Definition get_governance_status_batch (self : DataHubClient)
    (dataset_urns : list string) : list (string * DatasetGovernanceStatus) :=
  foldl
    (λ results urn,
       match get_governance_status self urn with
       | Ok st => dict_set urn st results
       | Raise _ => dict_set urn (status_default urn false) results
       end)
    [] dataset_urns.

Definition MockDataHubClient
    (mock_data : list (string * DatasetGovernanceStatus)) : DataHubClient :=
  {| get_governance_status dataset_urn :=
       match dict_get dataset_urn mock_data with
       | Some st => Ok st
       | None => Ok (status_default dataset_urn false)
       end |}.

(** ** rules/base.py *)

Definition statuses : Type := list (string * DatasetGovernanceStatus).

(** A rule: its class attribute [rule_name], the configuration it was
    built from, and its [validate] method, which may raise. *)
Record BaseRule : Type := {
  br_rule_name : string;
  br_config : GovernanceRule;
  br_validate :
    DbtModel → DatasetGovernanceStatus → DbtManifest → statuses →
    result ValidationResult
}.

Definition br_severity (self : BaseRule) : ValidationSeverity :=
  gr_severity (br_config self).

Definition _create_result (rule_name : string) (config : GovernanceRule)
    (model : DbtModel) (passed : bool) (message : string)
    (details : list (string * value)) : ValidationResult :=
  {| rule_name := rule_name;
     model_name := name model;
     model_unique_id := unique_id model;
     passed := passed;
     severity := gr_severity config;
     message := message;
     details := details |}.

(** ** rules/builtin.py: [NoDeprecatedUpstreamRule] *)

(** [name.upper() in urn.upper() or name.lower() in urn.lower()] *)
Definition name_in_urn (n urn : string) : bool :=
  Str.py_in (Str.upper n) (Str.upper urn)
  || Str.py_in (Str.lower n) (Str.lower urn).

(** The entries appended to [deprecated_upstreams], in order, as the
    triples (dependency name, identifier, deprecation note). *)
Definition deprecated_upstreams (model : DbtModel) (manifest : DbtManifest)
    (all_statuses : statuses) : list (string * string * option string) :=
  flat_map
    (λ dep_id,
       match get_model manifest dep_id with
       | Some dep_model =>
           flat_map
             (λ '(urn, dep_status),
                if exists_ dep_status && is_deprecated dep_status then
                  if name_in_urn (name dep_model) urn then
                    [(name dep_model, urn, deprecation_note dep_status)]
                  else []
                else [])
             all_statuses
       | None => []
       end)
    (depends_on model).

Definition deprecated_entry (d : string * string * option string) : value :=
  let '(n, urn, note) := d in
  VDict [("name", VStr n); ("urn", VStr urn); ("note", value_of_opt note)].

Definition no_deprecated_upstream_validate (config : GovernanceRule)
    (model : DbtModel) (status : DatasetGovernanceStatus)
    (manifest : DbtManifest) (all_statuses : statuses) : ValidationResult :=
  let deprecated_upstreams := deprecated_upstreams model manifest all_statuses in
  match deprecated_upstreams with
  | _ :: _ =>
      let dep_names := List.map (λ d, fst (fst d)) deprecated_upstreams in
      _create_result "no_deprecated_upstream" config model false
        ("Model depends on deprecated datasets: " +:+ Str.join ", " dep_names)
        [("deprecated_upstreams",
          VList (List.map deprecated_entry deprecated_upstreams))]
  | [] =>
      _create_result "no_deprecated_upstream" config model true
        "No deprecated upstream dependencies found"
        [("checked_dependencies",
          VInt (Z.of_nat (length (depends_on model))))]
  end.

Definition NoDeprecatedUpstreamRule (config : GovernanceRule) : BaseRule :=
  {| br_rule_name := "no_deprecated_upstream";
     br_config := config;
     br_validate model status manifest all_statuses :=
       Ok (no_deprecated_upstream_validate config model status manifest
             all_statuses) |}.

(** ** rules/engine.py *)

Record GovernanceEngine : Type := {
  eng_config : GovernanceConfig;
  datahub_client : DataHubClient;
  manifest : DbtManifest;
  urn_mapper : UrnMapper;
  _rules : list BaseRule
}.

(** [_initialize_rules], over a registry of rule constructors by name *)
Definition _initialize_rules
    (registry : list (string * (GovernanceRule → BaseRule)))
    (config : GovernanceConfig) : list BaseRule :=
  flat_map
    (λ '(rule_name, rule_config),
       if gr_enabled rule_config then
         match dict_get rule_name registry with
         | Some rule_class => [rule_class rule_config]
         | None => []
         end
       else [])
    (rules config).

Definition GovernanceEngine_init
    (registry : list (string * (GovernanceRule → BaseRule)))
    (config : GovernanceConfig) (client : DataHubClient)
    (manifest : DbtManifest) : GovernanceEngine :=
  {| eng_config := config;
     datahub_client := client;
     manifest := manifest;
     urn_mapper :=
       UrnMapper_init (target_platform config) (environment config)
         (cfg_platform_instance config) None None;
     _rules := _initialize_rules registry config |}.

Section Engine.
Context `{Environment}.

(** One of the two loops of [_should_include_model]: does some pattern of
    the list match the model's name or its path? *)
Fixpoint matches_some (model : DbtModel) (patterns : list string) : bool :=
  match patterns with
  | [] => false
  | pattern :: rest =>
      if fnmatch (name model) pattern || fnmatch (path model) pattern
      then true
      else matches_some model rest
  end.

Definition _should_include_model (self : GovernanceEngine)
    (model : DbtModel) : bool :=
  if matches_some model (exclude_patterns (eng_config self)) then false
  else if matches_some model (include_patterns (eng_config self)) then true
  else false.

(** The set [urns_to_fetch] at the end of the loops of
    [_fetch_all_governance_statuses]. *)
Definition urns_to_fetch (self : GovernanceEngine) (models : list DbtModel)
  : gset string :=
  foldl
    (λ urns model,
       foldl
         (λ urns dep_id,
            match get_model (manifest self) dep_id with
            | Some dep_model =>
                urns ∪ {[ model_to_urn (urn_mapper self) dep_model ]}
            | None => urns
            end)
         (urns ∪ {[ model_to_urn (urn_mapper self) model ]})
         (depends_on model))
    ∅ models.

Definition _fetch_all_governance_statuses (self : GovernanceEngine)
    (models : list DbtModel) : statuses :=
  get_governance_status_batch (datahub_client self)
    (elements (urns_to_fetch self models)).

(** The outcome forced when a rule raises [e] on [model]. *)
Definition rule_error (rule : BaseRule) (model : DbtModel) (e : string)
  : ValidationResult :=
  {| rule_name := br_rule_name rule;
     model_name := name model;
     model_unique_id := unique_id model;
     passed := false;
     severity := ERROR;
     message := "Rule execution error: " +:+ e;
     details := [("error", VStr e)] |}.

(** The body of the loop over the rules: [try: ... except Exception]. *)
Definition run_rule (self : GovernanceEngine) (model : DbtModel)
    (status : DatasetGovernanceStatus) (all_statuses : statuses)
    (report : ValidationReport) (rule : BaseRule) : ValidationReport :=
  match br_validate rule model status (manifest self) all_statuses with
  | Ok result => add_result report result
  | Raise e => add_result report (rule_error rule model e)
  end.

Definition models_to_validate (self : GovernanceEngine) : list DbtModel :=
  List.filter (_should_include_model self)
    (dict_values (models (manifest self))).

(** [all_statuses.get(urn, DatasetGovernanceStatus(urn=urn, exists=False))] *)
Definition status_of (all_statuses : statuses) (urn : string)
  : DatasetGovernanceStatus :=
  match dict_get urn all_statuses with
  | Some st => st
  | None => status_default urn false
  end.

Definition validate (self : GovernanceEngine) : ValidationReport :=
  let report := ValidationReport_new in
  let models_to_validate := models_to_validate self in
  let report :=
    set_total_models_checked (Z.of_nat (length models_to_validate)) report in
  let all_statuses :=
    _fetch_all_governance_statuses self models_to_validate in
  foldl
    (λ report model,
       let urn := model_to_urn (urn_mapper self) model in
       let status := status_of all_statuses urn in
       foldl (run_rule self model status all_statuses) report (_rules self))
    report models_to_validate.

(** The loop of [validate_single_model] over the dependencies; a fetch
    that raises ends the call. *)
Fixpoint fetch_dependencies (self : GovernanceEngine)
    (all_statuses : statuses) (deps : list string) : result statuses :=
  match deps with
  | [] => Ok all_statuses
  | dep_id :: rest =>
      match get_model (manifest self) dep_id with
      | Some dep_model =>
          let dep_urn := model_to_urn (urn_mapper self) dep_model in
          match get_governance_status (datahub_client self) dep_urn with
          | Ok st =>
              fetch_dependencies self (dict_set dep_urn st all_statuses) rest
          | Raise e => Raise e
          end
      | None => fetch_dependencies self all_statuses rest
      end
  end.

Definition validate_single_model (self : GovernanceEngine)
    (model_name : string) : result ValidationReport :=
  match get_model_by_name (manifest self) model_name with
  | None =>
      let report := ValidationReport_new in
      Ok (add_result report
            {| rule_name := "model_lookup";
               model_name := model_name;
               model_unique_id := "";
               passed := false;
               severity := ERROR;
               message := "Model not found in manifest: " +:+ model_name;
               details := [] |})
  | Some model =>
      let report := set_total_models_checked 1 ValidationReport_new in
      let urn := model_to_urn (urn_mapper self) model in
      match get_governance_status (datahub_client self) urn with
      | Raise e => Raise e
      | Ok status =>
          match fetch_dependencies self [(urn, status)] (depends_on model) with
          | Raise e => Raise e
          | Ok all_statuses =>
              Ok (foldl (run_rule self model status all_statuses) report
                    (_rules self))
          end
      end
  end.
End Engine.

(** ** The rest of models/governance.py *)

(** The [value] of a member of the enumeration *)
Definition severity_value (s : ValidationSeverity) : string :=
  match s with
  | ERROR => "error"
  | WARNING => "warning"
  | INFO => "info"
  end.

(** [ValidationSeverity(s)]: the member with that value, or [ValueError] *)
Definition ValidationSeverity_of_value (s : string)
  : result ValidationSeverity :=
  if String.eqb s "error" then Ok ERROR
  else if String.eqb s "warning" then Ok WARNING
  else if String.eqb s "info" then Ok INFO
  else Raise ("'" +:+ s +:+ "' is not a valid ValidationSeverity").

(** [GovernanceRule.__post_init__] on a severity given as a string *)
Definition GovernanceRule_severity (severity : string)
  : result ValidationSeverity :=
  ValidationSeverity_of_value (Str.lower severity).

Definition get_errors (self : ValidationReport) : list ValidationResult :=
  List.filter is_error (results self).

Definition get_warnings (self : ValidationReport) : list ValidationResult :=
  List.filter is_warning (results self).

Definition get_results_for_model (self : ValidationReport)
    (model_unique_id' : string) : list ValidationResult :=
  List.filter (λ r, String.eqb (model_unique_id r) model_unique_id')
    (results self).

(** Any Python object, as [_make_json_safe] sees it: the JSON primitives,
    lists, dictionaries with string keys, and everything else (a tuple, a
    set, an enum member, ...), known by its [str()]. A float is known by
    its [repr]. *)
#[local] Unset Elimination Schemes.
Inductive pyobj : Type :=
  | ONone
  | OBool (b : bool)
  | OInt (n : Z)
  | OFloat (repr : string)
  | OStr (s : string)
  | OList (l : list pyobj)
  | ODict (d : list (string * pyobj))
  | OOther (str : string).
#[local] Set Elimination Schemes.

Fixpoint _make_json_safe (obj : pyobj) : pyobj :=
  match obj with
  | ODict d =>
      ODict (List.map (λ kv, match kv with (k, v) => (k, _make_json_safe v) end) d)
  | OList l => OList (List.map _make_json_safe l)
  | ONone | OBool _ | OInt _ | OFloat _ | OStr _ => obj
  | OOther str => OStr str
  end.

(** ** The rest of models/dbt_models.py *)

Definition full_name (self : DbtModel) : string :=
  if opt_truthy (database self)
  then opt_or_str (database self) "" +:+ "." +:+ schema self +:+ "." +:+ name self
  else schema self +:+ "." +:+ name self.

Definition model_count (self : DbtManifest) : Z :=
  Z.of_nat (length (models self)).

(** [s.startswith(p)] *)
Definition startswith (s p : string) : bool :=
  match Str.strip_prefix p s with Some _ => true | None => false end.

Definition get_upstream_models (self : DbtManifest) (model : DbtModel)
  : list DbtModel :=
  flat_map
    (λ dep_id,
       if startswith dep_id "model." then
         match dict_get dep_id (models self) with
         | Some dep_model => [dep_model]
         | None => []
         end
       else [])
    (depends_on model).

Definition get_all_model_names (self : DbtManifest) : list string :=
  List.map name (dict_values (models self)).

(** ** The rest of datahub/urn_mapper.py *)

Definition source_to_urn `{Environment} (self : UrnMapper)
    (source_name : string) (source_database source_schema : option string)
  : string :=
  let database :=
    opt_or_str (opt_or source_database (custom_database self)) "" in
  let schema := opt_or_str (opt_or source_schema (custom_schema self)) "" in
  let database :=
    if Str.truthy database then _normalize_name self database else "" in
  let schema :=
    if Str.truthy schema then _normalize_name self schema else "" in
  let name := _normalize_name self source_name in
  let dataset_name :=
    if Str.truthy database && Str.truthy schema then
      database +:+ "." +:+ schema +:+ "." +:+ name
    else if Str.truthy schema then schema +:+ "." +:+ name
    else name in
  build_urn self dataset_name.

(** ** The rest of datahub/client.py: [MockDataHubClient] *)

(** [dataset_exists] of the mock: [dataset_urn in self._mock_data] *)
Definition mock_dataset_exists
    (mock_data : list (string * DatasetGovernanceStatus))
    (dataset_urn : string) : bool :=
  match dict_get dataset_urn mock_data with Some _ => true | None => false end.

(** [add_mock_dataset]: [self._mock_data[status.urn] = status] *)
Definition add_mock_dataset
    (mock_data : list (string * DatasetGovernanceStatus))
    (status : DatasetGovernanceStatus)
  : list (string * DatasetGovernanceStatus) :=
  dict_set (urn status) status mock_data.

(** ** More of Python *)

Module Py.

(** [c.isspace()] on ASCII: tab to carriage return, the four separators
    and the space. *)
Definition is_space (c : ascii) : bool :=
  let n := N_of_ascii c in
  ((9 <=? n)%N && (n <=? 13)%N) || ((28 <=? n)%N && (n <=? 32)%N).

Fixpoint lstrip (s : string) : string :=
  match s with
  | EmptyString => EmptyString
  | String c s' => if is_space c then lstrip s' else s
  end.

Fixpoint rstrip (s : string) : string :=
  match s with
  | EmptyString => EmptyString
  | String c s' =>
      match rstrip s' with
      | EmptyString => if is_space c then EmptyString else String c EmptyString
      | r => String c r
      end
  end.

(** [s.strip()] *)
Definition strip (s : string) : string := rstrip (lstrip s).

(** [s[:n]] *)
Fixpoint take (n : nat) (s : string) : string :=
  match n, s with
  | S n', String c s' => String c (take n' s')
  | _, _ => EmptyString
  end.

(** [s.replace(old, new)] for a one-character [old] *)
Fixpoint replace_char (old : ascii) (new : string) (s : string) : string :=
  match s with
  | EmptyString => EmptyString
  | String c s' =>
      if Ascii.eqb c old then new +:+ replace_char old new s'
      else String c (replace_char old new s')
  end.

(** [str(n)] for an [int] *)
Definition str_int (n : Z) : string :=
  DecimalString.NilZero.string_of_int (Z.to_int n).

(** [bool(v)] *)
Definition truthy (v : value) : bool :=
  match v with
  | VNone => false
  | VBool b => b
  | VInt n => negb (n =? 0)
  | VStr s => Str.truthy s
  | VList l => match l with [] => false | _ => true end
  | VDict d => match d with [] => false | _ => true end
  end.

(** [type(v).__name__] *)
Definition type_name (v : value) : string :=
  match v with
  | VNone => "NoneType"
  | VBool _ => "bool"
  | VInt _ => "int"
  | VStr _ => "str"
  | VList _ => "list"
  | VDict _ => "dict"
  end.

(** The [AttributeError] of [v.attr] when [type(v)] has no such attribute *)
Definition no_attribute (v : value) (attr : string) : string :=
  "'" +:+ type_name v +:+ "' object has no attribute '" +:+ attr +:+ "'".

End Py.

(** Python's [str()] of a list or a dictionary, which the messages of two
    rules may embed, is taken from outside. *)
Class Builtins : Type := {
  str_container : value → string
}.

(** [str(v)], also what an f-string puts for [{v}] *)
Definition str_value `{Builtins} (v : value) : string :=
  match v with
  | VNone => "None"
  | VBool true => "True"
  | VBool false => "False"
  | VInt n => Py.str_int n
  | VStr s => s
  | VList _ | VDict _ => str_container v
  end.

(** ** The rest of rules/builtin.py *)

Definition require_owner_validate (config : GovernanceRule)
    (model : DbtModel) (status : DatasetGovernanceStatus) : ValidationResult :=
  if negb (exists_ status) then
    _create_result "require_owner" config model false
      ("Dataset not found in DataHub: " +:+ urn status)
      [("urn", VStr (urn status)); ("reason", VStr "not_found")]
  else if has_owner status then
    _create_result "require_owner" config model true
      ("Model has owner(s): " +:+ Str.join ", " (owners status))
      [("owners", VList (List.map VStr (owners status)))]
  else
    _create_result "require_owner" config model false
      "Model does not have an owner assigned in DataHub"
      [("urn", VStr (urn status))].

(** [status.urn if status.exists else None] *)
Definition urn_if_exists (status : DatasetGovernanceStatus) : value :=
  if exists_ status then VStr (urn status) else VNone.

Definition require_description_validate (config : GovernanceRule)
    (model : DbtModel) (status : DatasetGovernanceStatus) : ValidationResult :=
  if opt_truthy (description model)
     && Str.truthy (Py.strip (opt_or_str (description model) "")) then
    _create_result "require_description" config model true
      "Model has description in dbt manifest"
      [("source", VStr "dbt");
       ("description", VStr (Py.take 100 (opt_or_str (description model) "")))]
  else if exists_ status && has_description status then
    _create_result "require_description" config model true
      "Model has description in DataHub"
      [("source", VStr "datahub");
       ("description",
        VStr (Py.take 100 (opt_or_str (st_description status) "")))]
  else
    _create_result "require_description" config model false
      "Model does not have a description in dbt or DataHub"
      [("urn", urn_if_exists status)].

Definition require_domain_validate (config : GovernanceRule)
    (model : DbtModel) (status : DatasetGovernanceStatus) : ValidationResult :=
  if negb (exists_ status) then
    _create_result "require_domain" config model false
      ("Dataset not found in DataHub: " +:+ urn status)
      [("urn", VStr (urn status)); ("reason", VStr "not_found")]
  else if has_domain status then
    _create_result "require_domain" config model true
      ("Model is assigned to domain: "
       +:+ match domain status with Some d => d | None => "None" end)
      [("domain", value_of_opt (domain status))]
  else
    _create_result "require_domain" config model false
      "Model is not assigned to any domain in DataHub"
      [("urn", VStr (urn status))].

(** The entries appended to [unowned_upstreams], in order, as the pairs
    (dependency name, identifier). *)
Definition unowned_upstreams (model : DbtModel) (manifest : DbtManifest)
    (all_statuses : statuses) : list (string * string) :=
  flat_map
    (λ dep_id,
       match get_model manifest dep_id with
       | Some dep_model =>
           flat_map
             (λ '(urn, dep_status),
                if exists_ dep_status && negb (has_owner dep_status) then
                  if name_in_urn (name dep_model) urn then
                    [(name dep_model, urn)]
                  else []
                else [])
             all_statuses
       | None => []
       end)
    (depends_on model).

Definition upstream_must_have_owner_validate (config : GovernanceRule)
    (model : DbtModel) (status : DatasetGovernanceStatus)
    (manifest : DbtManifest) (all_statuses : statuses) : ValidationResult :=
  let unowned_upstreams := unowned_upstreams model manifest all_statuses in
  match unowned_upstreams with
  | _ :: _ =>
      let dep_names := List.map fst unowned_upstreams in
      _create_result "upstream_must_have_owner" config model false
        ("Upstream dependencies without owners: " +:+ Str.join ", " dep_names)
        [("unowned_upstreams",
          VList (List.map
                   (λ '(n, urn), VDict [("name", VStr n); ("urn", VStr urn)])
                   unowned_upstreams))]
  | [] =>
      _create_result "upstream_must_have_owner" config model true
        "All upstream dependencies have owners"
        [("checked_dependencies",
          VInt (Z.of_nat (length (depends_on model))))]
  end.

Definition require_tags_validate (config : GovernanceRule)
    (model : DbtModel) (status : DatasetGovernanceStatus) : ValidationResult :=
  match model_tags model with
  | _ :: _ =>
      _create_result "require_tags" config model true
        ("Model has dbt tags: " +:+ Str.join ", " (model_tags model))
        [("source", VStr "dbt");
         ("tags", VList (List.map VStr (model_tags model)))]
  | [] =>
      if exists_ status && has_tags status then
        _create_result "require_tags" config model true
          ("Model has DataHub tags: " +:+ Str.join ", " (tags status))
          [("source", VStr "datahub");
           ("tags", VList (List.map VStr (tags status)))]
      else
        _create_result "require_tags" config model false
          "Model does not have any tags in dbt or DataHub"
          [("urn", urn_if_exists status)]
  end.

(** [not col_info.get("description", "").strip()], which raises when the
    description is not a string *)
Definition description_blank (col_info : list (string * value)) : result bool :=
  match dict_get "description" col_info with
  | None => Ok true
  | Some (VStr s) => Ok (negb (Str.truthy (Py.strip s)))
  | Some v => Raise (Py.no_attribute v "strip")
  end.

(** The comprehension [missing]: the columns are tested in order and the
    first test that raises ends it. *)
Fixpoint missing_descriptions (cols : list (string * list (string * value)))
  : result (list string) :=
  match cols with
  | [] => Ok []
  | (col_name, col_info) :: rest =>
      match description_blank col_info with
      | Raise e => Raise e
      | Ok blank =>
          match missing_descriptions rest with
          | Raise e => Raise e
          | Ok missing => Ok (if blank then col_name :: missing else missing)
          end
      end
  end.

Definition require_column_descriptions_validate (config : GovernanceRule)
    (model : DbtModel) : result ValidationResult :=
  match columns model with
  | [] =>
      Ok (_create_result "require_column_descriptions" config model true
            "No columns defined in model" [("column_count", VInt 0)])
  | _ :: _ =>
      match missing_descriptions (columns model) with
      | Raise e => Raise e
      | Ok ((_ :: _) as missing) =>
          let preview :=
            Str.join ", " (firstn 5 missing)
            +:+ (if (5 <? length missing)%nat then "..." else "") in
          Ok (_create_result "require_column_descriptions" config model false
                ("Columns missing descriptions: " +:+ preview)
                [("missing_columns", VList (List.map VStr missing));
                 ("total_columns", VInt (Z.of_nat (length (columns model))));
                 ("missing_count", VInt (Z.of_nat (length missing)))])
      | Ok [] =>
          Ok (_create_result "require_column_descriptions" config model true
                ("All " +:+ Py.str_int (Z.of_nat (length (columns model)))
                 +:+ " columns have descriptions")
                [("column_count", VInt (Z.of_nat (length (columns model))))])
      end
  end.

Definition VALID_PREFIXES : list string :=
  ["stg_"; "int_"; "dim_"; "fct_"; "rpt_"; "base_"; "raw_"].

(** The loop of [NamingConventionRule.validate]: the first prefix of the
    list that the name starts with. *)
Fixpoint first_prefix (n : string) (prefixes : list string) : option string :=
  match prefixes with
  | [] => None
  | prefix :: rest =>
      if startswith n prefix then Some prefix else first_prefix n rest
  end.

Definition naming_convention_validate (config : GovernanceRule)
    (model : DbtModel) : ValidationResult :=
  let n := Str.lower (name model) in
  match first_prefix n VALID_PREFIXES with
  | Some prefix =>
      _create_result "naming_convention" config model true
        ("Model follows naming convention with prefix '" +:+ prefix +:+ "'")
        [("prefix", VStr prefix)]
  | None =>
      _create_result "naming_convention" config model false
        ("Model name '" +:+ name model
         +:+ "' does not follow naming conventions (expected: "
         +:+ Str.join ", " VALID_PREFIXES +:+ ")")
        [("valid_prefixes", VList (List.map VStr VALID_PREFIXES));
         ("model_name", VStr (name model))]
  end.

Definition require_materialization_validate `{Builtins}
    (rule_cfg : GovernanceRule) (model : DbtModel) : ValidationResult :=
  let materialized :=
    match dict_get "materialized" (config model) with
    | Some v => v
    | None => VNone
    end in
  if Py.truthy materialized then
    _create_result "require_materialization" rule_cfg model true
      ("Model has materialization: " +:+ str_value materialized)
      [("materialization", materialized)]
  else
    _create_result "require_materialization" rule_cfg model false
      "Model does not have explicit materialization configured"
      [("config", VDict (config model))].

(** [n > v] for an [int] [n]: defined against an [int] or a [bool], a
    [TypeError] against the rest. *)
Definition int_gt (n : Z) (v : value) : result bool :=
  match v with
  | VInt m => Ok (m <? n)
  | VBool b => Ok ((if b then 1 else 0) <? n)
  | _ =>
      Raise ("'>' not supported between instances of 'int' and '"
             +:+ Py.type_name v +:+ "'")
  end.

Definition max_upstream_dependencies_validate `{Builtins}
    (rule_cfg : GovernanceRule) (model : DbtModel)
  : result ValidationResult :=
  let max_deps :=
    match dict_get "max_dependencies" (gr_config rule_cfg) with
    | Some v => v
    | None => VInt 10
    end in
  let dep_count := Z.of_nat (length (depends_on model)) in
  match int_gt dep_count max_deps with
  | Raise e => Raise e
  | Ok true =>
      Ok (_create_result "max_upstream_dependencies" rule_cfg model false
            ("Model has " +:+ Py.str_int dep_count
             +:+ " upstream dependencies (max: " +:+ str_value max_deps
             +:+ ")")
            [("dependency_count", VInt dep_count);
             ("max_allowed", max_deps);
             ("dependencies",
              VList (List.map VStr (firstn 10 (depends_on model))))])
  | Ok false =>
      Ok (_create_result "max_upstream_dependencies" rule_cfg model true
            ("Model has " +:+ Py.str_int dep_count
             +:+ " upstream dependencies (within limit of "
             +:+ str_value max_deps +:+ ")")
            [("dependency_count", VInt dep_count);
             ("max_allowed", max_deps)])
  end.

Definition PII_INDICATORS : list string :=
  ["email"; "phone"; "ssn"; "address"; "name"; "dob"; "birth"].

(** [col_info.get("meta", {}).get("pii")] as a condition, which raises
    when [meta] is not a dictionary *)
Definition meta_pii (col_info : list (string * value)) : result bool :=
  match dict_get "meta" col_info with
  | None => Ok false
  | Some (VDict meta) =>
      Ok (match dict_get "pii" meta with
          | Some v => Py.truthy v
          | None => false
          end)
  | Some v => Raise (Py.no_attribute v "get")
  end.

(** [any(indicator in col_lower for indicator in PII_INDICATORS)] *)
Definition has_pii_indicator (col_name : string) : bool :=
  existsb (λ indicator, Str.py_in indicator (Str.lower col_name))
    PII_INDICATORS.

(** The loop building [pii_columns], started with the list [acc]. *)
Fixpoint pii_columns_from (acc : list string)
    (cols : list (string * list (string * value))) : result (list string) :=
  match cols with
  | [] => Ok acc
  | (col_name, col_info) :: rest =>
      match meta_pii col_info with
      | Raise e => Raise e
      | Ok true => pii_columns_from (acc ++ [col_name]) rest
      | Ok false =>
          if has_pii_indicator col_name
          then pii_columns_from (acc ++ [col_name]) rest
          else pii_columns_from acc rest
      end
  end.

Definition require_pii_tag_validate (rule_cfg : GovernanceRule)
    (model : DbtModel) : result ValidationResult :=
  match pii_columns_from [] (columns model) with
  | Raise e => Raise e
  | Ok [] =>
      Ok (_create_result "require_pii_tag" rule_cfg model true
            "No PII columns detected"
            [("checked_columns", VInt (Z.of_nat (length (columns model))))])
  | Ok ((_ :: _) as pii_columns) =>
      let has_pii_tag := str_in "pii" (List.map Str.lower (model_tags model)) in
      if has_pii_tag then
        Ok (_create_result "require_pii_tag" rule_cfg model true
              "Model with PII columns is properly tagged"
              [("pii_columns", VList (List.map VStr pii_columns))])
      else
        Ok (_create_result "require_pii_tag" rule_cfg model false
              ("Model has PII columns ("
               +:+ Str.join ", " (firstn 3 pii_columns)
               +:+ ") but is not tagged with 'pii'")
              [("pii_columns", VList (List.map VStr pii_columns));
               ("current_tags", VList (List.map VStr (model_tags model)))])
  end.

(** The rule classes: each builds a rule from its configuration. *)

Definition RequireOwnerRule (config : GovernanceRule) : BaseRule :=
  {| br_rule_name := "require_owner";
     br_config := config;
     br_validate model status manifest all_statuses :=
       Ok (require_owner_validate config model status) |}.

Definition RequireDescriptionRule (config : GovernanceRule) : BaseRule :=
  {| br_rule_name := "require_description";
     br_config := config;
     br_validate model status manifest all_statuses :=
       Ok (require_description_validate config model status) |}.

Definition RequireDomainRule (config : GovernanceRule) : BaseRule :=
  {| br_rule_name := "require_domain";
     br_config := config;
     br_validate model status manifest all_statuses :=
       Ok (require_domain_validate config model status) |}.

Definition UpstreamMustHaveOwnerRule (config : GovernanceRule) : BaseRule :=
  {| br_rule_name := "upstream_must_have_owner";
     br_config := config;
     br_validate model status manifest all_statuses :=
       Ok (upstream_must_have_owner_validate config model status manifest
             all_statuses) |}.

Definition RequireTagsRule (config : GovernanceRule) : BaseRule :=
  {| br_rule_name := "require_tags";
     br_config := config;
     br_validate model status manifest all_statuses :=
       Ok (require_tags_validate config model status) |}.

Definition RequireColumnDescriptionsRule (config : GovernanceRule)
  : BaseRule :=
  {| br_rule_name := "require_column_descriptions";
     br_config := config;
     br_validate model status manifest all_statuses :=
       require_column_descriptions_validate config model |}.

Definition NamingConventionRule (config : GovernanceRule) : BaseRule :=
  {| br_rule_name := "naming_convention";
     br_config := config;
     br_validate model status manifest all_statuses :=
       Ok (naming_convention_validate config model) |}.

Definition RequireMaterializationRule `{Builtins} (rule_cfg : GovernanceRule)
  : BaseRule :=
  {| br_rule_name := "require_materialization";
     br_config := rule_cfg;
     br_validate model status manifest all_statuses :=
       Ok (require_materialization_validate rule_cfg model) |}.

Definition MaxUpstreamDependenciesRule `{Builtins} (rule_cfg : GovernanceRule)
  : BaseRule :=
  {| br_rule_name := "max_upstream_dependencies";
     br_config := rule_cfg;
     br_validate model status manifest all_statuses :=
       max_upstream_dependencies_validate rule_cfg model |}.

Definition RequirePIITagRule (rule_cfg : GovernanceRule) : BaseRule :=
  {| br_rule_name := "require_pii_tag";
     br_config := rule_cfg;
     br_validate model status manifest all_statuses :=
       require_pii_tag_validate rule_cfg model |}.

(** ** The rest of rules/engine.py *)

Definition RULE_REGISTRY `{Builtins}
  : list (string * (GovernanceRule → BaseRule)) :=
  [ ("require_owner", RequireOwnerRule);
    ("require_description", RequireDescriptionRule);
    ("require_domain", RequireDomainRule);
    ("no_deprecated_upstream", NoDeprecatedUpstreamRule);
    ("upstream_must_have_owner", UpstreamMustHaveOwnerRule);
    ("require_tags", RequireTagsRule);
    ("require_column_descriptions", RequireColumnDescriptionsRule);
    ("naming_convention", NamingConventionRule);
    ("require_materialization", RequireMaterializationRule);
    ("max_upstream_dependencies", MaxUpstreamDependenciesRule);
    ("require_pii_tag", RequirePIITagRule) ].

(** [GovernanceEngine(config, datahub_client, manifest)] *)
Definition GovernanceEngine_new `{Builtins} (config : GovernanceConfig)
    (client : DataHubClient) (manifest : DbtManifest) : GovernanceEngine :=
  GovernanceEngine_init RULE_REGISTRY config client manifest.

(** ** cli.py: the exit code of the [validate] command *)

Definition EXIT_SUCCESS : Z := 0.
Definition EXIT_VALIDATION_FAILED : Z := 1.

(** The branch "Determine exit code" at the end of the command. *)
Definition exit_code (governance_config : GovernanceConfig)
    (report : ValidationReport) : Z :=
  if has_errors report then EXIT_VALIDATION_FAILED
  else if fail_on_warnings governance_config && has_warnings report
       then EXIT_VALIDATION_FAILED
  else EXIT_SUCCESS.

(** ** reporters/github.py *)

Definition SEVERITY_LEVELS (s : ValidationSeverity) : string :=
  match s with
  | ERROR => "error"
  | WARNING => "warning"
  | INFO => "notice"
  end.

Definition newline : string := String (ascii_of_nat 10) EmptyString.

(** The annotation written for one failed result. *)
Definition github_annotation (result : ValidationResult) : string :=
  let level := SEVERITY_LEVELS (severity result) in
  let title := rule_name result +:+ ": " +:+ model_name result in
  let message := Py.replace_char (ascii_of_nat 10) "%0A" (message result) in
  "::" +:+ level +:+ " title=" +:+ title +:+ "::" +:+ message +:+ newline.

(** [GithubActionsReporter.report]: the strings written to the output, in
    order. *)
Definition github_report (validation_report : ValidationReport)
  : list string :=
  flat_map
    (λ result, if passed result then [] else [github_annotation result])
    (results validation_report)
  ++ [ newline;
       "Total models checked: "
       +:+ Py.str_int (total_models_checked validation_report) +:+ newline;
       "Checks passed: " +:+ Py.str_int (rep_passed validation_report)
       +:+ newline;
       "Errors: " +:+ Py.str_int (errors validation_report) +:+ newline;
       "Warnings: " +:+ Py.str_int (warnings validation_report) +:+ newline ].

(** ** Notions used to state the properties

    None of these is code of the package: they name what the statements of
    Part II talk about. *)

(** The sum the summary lines of the reporters add up to. *)
Definition tally (r : ValidationReport) : Z :=
  errors r + warnings r + rep_passed r.

(** A failed check of severity [INFO]: the case that [add_result] counts
    in [total_checks] only. *)
Definition is_info_failure (r : ValidationResult) : bool :=
  negb (passed r) && severity_eqb (severity r) INFO.

Definition info_failures (rs : list ValidationResult) : Z :=
  Z.of_nat (length (List.filter is_info_failure rs)).

(** Step 1 of [get_dataset_name]: the effective database and schema. *)
Definition effective_database (self : UrnMapper) (model : DbtModel) : string :=
  opt_or_str (opt_or (custom_database self) (database model)) "".

Definition effective_schema (self : UrnMapper) (model : DbtModel) : string :=
  opt_or_str (custom_schema self) (schema model).

(** The components as given, before normalization, and as joined. *)
Definition raw_components (self : UrnMapper) (model : DbtModel) : list string :=
  if String.eqb (platform self) "bigquery"
     || Str.truthy (effective_database self model)
  then [effective_database self model; effective_schema self model; name model]
  else [effective_schema self model; name model].

Definition name_components (self : UrnMapper) (model : DbtModel) : list string :=
  List.map (_normalize_name self) (raw_components self model).

(** The name embedded in the identifier: the dataset name, prefixed with
    the platform instance and a dot when there is one. *)
Definition embedded_name (self : UrnMapper) (dataset_name : string) : string :=
  if opt_truthy (platform_instance self)
  then opt_or_str (platform_instance self) "" +:+ "." +:+ dataset_name
  else dataset_name.

(** [model] matches [pattern] by its name or by its path. *)
Definition model_matches `{Environment} (model : DbtModel)
    (pattern : string) : bool :=
  fnmatch (name model) pattern || fnmatch (path model) pattern.

(** What one (rule, model) pair contributes to the report: the result of
    the rule, or the forced failure when the rule raises. *)
Definition outcome `{Environment} (self : GovernanceEngine)
    (all_statuses : statuses) (model : DbtModel) (rule : BaseRule)
  : ValidationResult :=
  match
    br_validate rule model
      (status_of all_statuses (model_to_urn (urn_mapper self) model))
      (manifest self) all_statuses
  with
  | Ok result => result
  | Raise e => rule_error rule model e
  end.

(** [n] occurs in [u] when case is ignored. *)
Definition occurs_ignoring_case (n u : string) : Prop :=
  ∃ pre post, Str.lower u = pre +:+ Str.lower n +:+ post.

(** ** Sample data: a small project and its catalog *)

(** Shell-style matching for patterns made of literal characters, [?] and
    [*] (no bracket expressions), whole string against whole pattern. *)
Fixpoint glob (pattern s : string) : bool :=
  match pattern with
  | EmptyString => negb (Str.truthy s)
  | String "*" pattern' =>
      (fix star (s : string) : bool :=
         glob pattern' s
         || match s with
            | EmptyString => false
            | String _ s' => star s'
            end) s
  | String "?" pattern' =>
      match s with
      | EmptyString => false
      | String _ s' => glob pattern' s'
      end
  | String c pattern' =>
      match s with
      | EmptyString => false
      | String d s' => Ascii.eqb c d && glob pattern' s'
      end
  end.

(** An installation without the DataHub SDK. *)
Definition no_sdk : Environment :=
  {| fnmatch n pattern := glob pattern n; mce_builder := None |}.

Definition dim_customers : DbtModel :=
  {| unique_id := "model.shop.dim_customers"; name := "Dim_Customers";
     database := Some "Analytics_DB"; schema := "Marts"; description := None;
     resource_type := "model"; package_name := "shop";
     path := "marts/dim_customers.sql";
     original_file_path := "models/marts/dim_customers.sql";
     depends_on := ["model.shop.stg_customers"];
     model_tags := []; meta := []; columns := []; config := [] |}.

Definition stg_customers : DbtModel :=
  {| unique_id := "model.shop.stg_customers"; name := "stg_customers";
     database := Some "analytics_db"; schema := "staging"; description := None;
     resource_type := "model"; package_name := "shop";
     path := "staging/stg_customers.sql";
     original_file_path := "models/staging/stg_customers.sql";
     depends_on := ["source.shop.raw.customers"];
     model_tags := []; meta := []; columns := []; config := [] |}.

Definition fct_orders : DbtModel :=
  {| unique_id := "model.shop.fct_orders"; name := "fct_orders";
     database := Some "analytics_db"; schema := "marts"; description := None;
     resource_type := "model"; package_name := "shop";
     path := "marts/fct_orders.sql";
     original_file_path := "models/marts/fct_orders.sql";
     depends_on := ["model.shop.dim_customers"; "model.shop.ghost"];
     model_tags := []; meta := []; columns := []; config := [] |}.

Definition shop_manifest : DbtManifest :=
  {| models :=
       [ ("model.shop.stg_customers", stg_customers);
         ("model.shop.dim_customers", dim_customers);
         ("model.shop.fct_orders", fct_orders) ];
     sources := []; metadata := []; dbt_version := "1.7.0" |}.

Definition dim_customers_urn : string :=
  "urn:li:dataset:(urn:li:dataPlatform:snowflake,ANALYTICS_DB.MARTS.DIM_CUSTOMERS,PROD)".

Definition fct_orders_urn : string :=
  "urn:li:dataset:(urn:li:dataPlatform:snowflake,ANALYTICS_DB.MARTS.FCT_ORDERS,PROD)".

Definition shop_catalog : list (string * DatasetGovernanceStatus) :=
  [ (dim_customers_urn,
     {| urn := dim_customers_urn; exists_ := true; has_owner := true;
        has_description := true; has_domain := false; has_tags := false;
        is_deprecated := true; owners := ["urn:li:corpuser:john.doe"];
        domain := None; tags := []; st_description := Some "Customers";
        deprecation_note := Some "Deprecated: use X" |});
    (fct_orders_urn,
     {| urn := fct_orders_urn; exists_ := true; has_owner := true;
        has_description := false; has_domain := false; has_tags := false;
        is_deprecated := false; owners := ["urn:li:corpuser:jane.roe"];
        domain := None; tags := []; st_description := None;
        deprecation_note := None |}) ].

Definition rule_config (n : string) (sev : ValidationSeverity) : GovernanceRule :=
  {| gr_name := n; gr_enabled := true; gr_severity := sev;
     gr_description := None; gr_config := [] |}.

(** A rule that raises on the model [dim_customers] and passes elsewhere. *)
Definition BrokenRule (config : GovernanceRule) : BaseRule :=
  {| br_rule_name := "broken";
     br_config := config;
     br_validate model status manifest all_statuses :=
       if String.eqb (name model) "Dim_Customers" then Raise "boom"
       else Ok (_create_result "broken" config model true "fine" []) |}.

Definition shop_config : GovernanceConfig :=
  {| rules :=
       [ ("broken", rule_config "broken" WARNING);
         ("no_deprecated_upstream",
          rule_config "no_deprecated_upstream" ERROR);
         ("not_in_registry", rule_config "not_in_registry" ERROR) ];
     target_platform := "Snowflake";
     environment := "PROD";
     cfg_platform_instance := None;
     fail_on_warnings := false;
     include_patterns := ["*"];
     exclude_patterns := ["stg_*"] |}.

Definition shop_engine : GovernanceEngine :=
  GovernanceEngine_init
    [ ("no_deprecated_upstream", NoDeprecatedUpstreamRule);
      ("broken", BrokenRule) ]
    shop_config (MockDataHubClient shop_catalog) shop_manifest.

(** ** Further notions used to state the properties *)

(** No object that JSON cannot hold is left in [o]. *)
Fixpoint json_safe (o : pyobj) : bool :=
  match o with
  | ODict d => forallb (λ kv, match kv with (_, v) => json_safe v end) d
  | OList l => forallb json_safe l
  | ONone | OBool _ | OInt _ | OFloat _ | OStr _ => true
  | OOther _ => false
  end.

(** The results of a report that did not pass. *)
Definition failed_results (r : ValidationReport) : list ValidationResult :=
  List.filter (λ x, negb (passed x)) (results r).

(** A client whose every fetch raises. *)
Definition UnreachableClient : DataHubClient :=
  {| get_governance_status dataset_urn := Raise "connection refused" |}.

(** What a fetch of [u] leaves in a batch: the status, or the status of a
    dataset that does not exist when the fetch raises. *)
Definition fetched_status (client : DataHubClient) (u : string)
  : DatasetGovernanceStatus :=
  match get_governance_status client u with
  | Ok st => st
  | Raise _ => status_default u false
  end.

(** The engine of the worked run, with a catalog that cannot be reached. *)
Definition unreachable_engine : GovernanceEngine :=
  GovernanceEngine_init
    [ ("no_deprecated_upstream", NoDeprecatedUpstreamRule);
      ("broken", BrokenRule) ]
    shop_config UnreachableClient shop_manifest.

(** The identifiers of the dependency ids that resolve in the manifest, in
    the order of the ids. *)
Definition dependency_urns `{Environment} (self : GovernanceEngine)
    (deps : list string) : list string :=
  flat_map
    (λ dep_id,
       match get_model (manifest self) dep_id with
       | Some dep_model => [model_to_urn (urn_mapper self) dep_model]
       | None => []
       end)
    deps.

(** [GovernanceConfig.default()] (models/governance.py) *)
Definition GovernanceConfig_default : GovernanceConfig :=
  {| rules :=
       [ ("require_owner",
          {| gr_name := "require_owner"; gr_enabled := true;
             gr_severity := ERROR;
             gr_description :=
               Some "All models must have an owner assigned in DataHub";
             gr_config := [] |});
         ("require_description",
          {| gr_name := "require_description"; gr_enabled := true;
             gr_severity := ERROR;
             gr_description := Some "All models must have a description";
             gr_config := [] |});
         ("require_domain",
          {| gr_name := "require_domain"; gr_enabled := false;
             gr_severity := WARNING;
             gr_description :=
               Some "All models should be assigned to a domain";
             gr_config := [] |});
         ("no_deprecated_upstream",
          {| gr_name := "no_deprecated_upstream"; gr_enabled := true;
             gr_severity := ERROR;
             gr_description :=
               Some "Models cannot depend on deprecated upstream datasets";
             gr_config := [] |});
         ("upstream_must_have_owner",
          {| gr_name := "upstream_must_have_owner"; gr_enabled := true;
             gr_severity := WARNING;
             gr_description :=
               Some "Upstream dependencies should have owners";
             gr_config := [] |}) ];
     target_platform := "snowflake";
     environment := "PROD";
     cfg_platform_instance := None;
     fail_on_warnings := false;
     include_patterns := ["*"];
     exclude_patterns := [] |}.

(** A rendering of containers, for the sample runs. *)
Definition plain_builtins : Builtins :=
  {| str_container v :=
       match v with VList _ => "[...]" | _ => "{...}" end |}.

(** The engine of the default configuration on the sample project. *)
Definition default_engine : GovernanceEngine :=
  @GovernanceEngine_new plain_builtins GovernanceConfig_default
    (MockDataHubClient shop_catalog) shop_manifest.

(** The columns whose description is present as a string and blank, or
    absent. *)
Definition blank_columns (cols : list (string * list (string * value)))
  : list string :=
  List.map fst
    (List.filter
       (λ col, match description_blank col.2 with Ok true => true | _ => false end)
       cols).

(** A catalog in which the table of customers has no owner. *)
Definition unowned_catalog : list (string * DatasetGovernanceStatus) :=
  [ (dim_customers_urn,
     {| urn := dim_customers_urn; exists_ := true; has_owner := false;
        has_description := false; has_domain := false; has_tags := false;
        is_deprecated := false; owners := []; domain := None; tags := [];
        st_description := None; deprecation_note := None |}) ].

(** A model with columns: one described, one blank, one without
    description and one that looks personal. *)
Definition customers_wide : DbtModel :=
  {| unique_id := "model.shop.customers_wide"; name := "customers_wide";
     database := Some "analytics_db"; schema := "marts";
     description := Some "  ";
     resource_type := "model"; package_name := "shop";
     path := "marts/customers_wide.sql";
     original_file_path := "models/marts/customers_wide.sql";
     depends_on := ["model.shop.dim_customers"];
     model_tags := ["Finance"]; meta := [];
     columns :=
       [ ("customer_id", [("description", VStr "Key of the customer")]);
         ("segment", [("description", VStr "   ")]);
         ("UserName", []);
         ("score", [("description", VStr "Risk score"); ("meta", VDict [])]) ];
     config := [("materialized", VStr "table")] |}.

(** The columns the rule [require_pii_tag] takes to hold personal data:
    those whose [meta] marks them with a true ["pii"] and those whose
    lowercased name contains one of [PII_INDICATORS]. *)
Definition marked_pii (col_info : list (string * value)) : bool :=
  match dict_get "meta" col_info with
  | Some (VDict meta) =>
      match dict_get "pii" meta with
      | Some v => Py.truthy v
      | None => false
      end
  | _ => false
  end.

Definition pii_columns (cols : list (string * list (string * value)))
  : list string :=
  List.map fst
    (List.filter (λ col, marked_pii col.2 || has_pii_indicator col.1) cols).

(** The line feed, as a character. *)
Definition LF : ascii := ascii_of_nat 10.

(* ===================================================================== *)
(** * Part II: properties *)
(* ===================================================================== *)

(** ** Strings *)

Module StrFacts.
Import Str.

Lemma app_cons a s t : String a s +:+ t = String a (s +:+ t).
Proof. reflexivity. Qed.

Lemma app_nil_l s : "" +:+ s = s.
Proof. reflexivity. Qed.

Lemma app_nil_r s : s +:+ "" = s.
Proof. induction s as [|a s IH]; [done|]. by rewrite app_cons, IH. Qed.

Lemma app_assoc s t u : (s +:+ t) +:+ u = s +:+ t +:+ u.
Proof.
  induction s as [|a s IH]; [done|]. by rewrite !app_cons, IH.
Qed.

Lemma map_app f s t : map f (s +:+ t) = map f s +:+ map f t.
Proof.
  induction s as [|a s IH]; [done|]. rewrite app_cons. simpl.
  by rewrite IH.
Qed.

Lemma all_app p s t : all p (s +:+ t) = all p s && all p t.
Proof.
  induction s as [|a s IH]; [done|]. rewrite app_cons. simpl.
  by rewrite IH, andb_assoc.
Qed.

Lemma truthy_map f s : truthy (map f s) = truthy s.
Proof. by destruct s. Qed.

Lemma strip_prefix_app p s : strip_prefix p (p +:+ s) = Some s.
Proof.
  induction p as [|a p IH]; [done|]. rewrite app_cons. simpl.
  by rewrite Ascii.eqb_refl.
Qed.

Lemma strip_prefix_Some p s r : strip_prefix p s = Some r → s = p +:+ r.
Proof.
  revert s. induction p as [|a p IH]; intros s Hs; simpl in Hs.
  - by destruct s; inversion Hs.
  - destruct s as [|b s]; [done|].
    destruct (Ascii.eqb a b) eqn:Hab; [|done].
    apply Ascii.eqb_eq in Hab as ->. rewrite app_cons. f_equal. by apply IH.
Qed.

Lemma py_in_nil sub :
  py_in sub "" = bool_decide (is_Some (strip_prefix sub "")).
Proof. by destruct sub. Qed.

Lemma py_in_cons sub a s :
  py_in sub (String a s)
  = bool_decide (is_Some (strip_prefix sub (String a s))) || py_in sub s.
Proof.
  change (py_in sub (String a s)) with
    (match strip_prefix sub (String a s) with
     | Some _ => true
     | None => py_in sub s
     end).
  by destruct (strip_prefix sub (String a s)).
Qed.

(** [sub in s] holds exactly when [s] is [pre + sub + post]. *)
Lemma py_in_spec sub s :
  py_in sub s = true ↔ ∃ pre post, s = pre +:+ sub +:+ post.
Proof.
  split.
  - induction s as [|a s IH].
    + rewrite py_in_nil. intros [r Hr]%bool_decide_eq_true_1.
      exists "", r. rewrite app_nil_l. by apply strip_prefix_Some.
    + rewrite py_in_cons. intros [[r Hr]%bool_decide_eq_true_1|Hin]%orb_true_iff.
      * exists "", r. rewrite app_nil_l. by apply strip_prefix_Some.
      * destruct (IH Hin) as [pre [post ->]]. by exists (String a pre), post.
  - intros [pre [post ->]]. induction pre as [|a pre IH].
    + rewrite app_nil_l.
      destruct (sub +:+ post) as [|b u] eqn:Hu.
      * rewrite py_in_nil, <- Hu, strip_prefix_app. by apply bool_decide_eq_true_2.
      * rewrite py_in_cons, <- Hu, strip_prefix_app.
        apply orb_true_iff. left. by apply bool_decide_eq_true_2.
    + rewrite app_cons, py_in_cons, IH. apply orb_true_r.
Qed.

(** Case mapping, character by character. *)
Lemma to_lower_to_upper c : to_lower (to_upper c) = to_lower c.
Proof. by destruct c as [[] [] [] [] [] [] [] []]. Qed.

Lemma to_upper_to_lower c : to_upper (to_lower c) = to_upper c.
Proof. by destruct c as [[] [] [] [] [] [] [] []]. Qed.

Lemma to_lower_idemp c : to_lower (to_lower c) = to_lower c.
Proof. by destruct c as [[] [] [] [] [] [] [] []]. Qed.

Lemma to_upper_not_lower c : is_lower (to_upper c) = false.
Proof. by destruct c as [[] [] [] [] [] [] [] []]. Qed.

Lemma to_lower_not_upper c : is_upper (to_lower c) = false.
Proof. by destruct c as [[] [] [] [] [] [] [] []]. Qed.

Lemma lower_upper s : lower (upper s) = lower s.
Proof.
  induction s as [|a s IH]; [done|]. unfold lower, upper in *. simpl.
  by rewrite to_lower_to_upper, IH.
Qed.

Lemma upper_lower s : upper (lower s) = upper s.
Proof.
  induction s as [|a s IH]; [done|]. unfold lower, upper in *. simpl.
  by rewrite to_upper_to_lower, IH.
Qed.

Lemma lower_idemp s : lower (lower s) = lower s.
Proof.
  induction s as [|a s IH]; [done|]. unfold lower in *. simpl.
  by rewrite to_lower_idemp, IH.
Qed.

Lemma upper_no_lower s : no_lower (upper s) = true.
Proof.
  induction s as [|a s IH]; [done|]. unfold no_lower, upper in *. simpl.
  by rewrite to_upper_not_lower, IH.
Qed.

Lemma lower_no_upper s : no_upper (lower s) = true.
Proof.
  induction s as [|a s IH]; [done|]. unfold no_upper, lower in *. simpl.
  by rewrite to_lower_not_upper, IH.
Qed.

(** On ASCII text the two tests of the upstream rules agree. *)
Lemma py_in_upper_lower a b :
  py_in (upper a) (upper b) = py_in (lower a) (lower b).
Proof.
  apply eq_true_iff_eq. rewrite !py_in_spec. split.
  - intros [pre [post Hb]]. exists (lower pre), (lower post).
    rewrite <- (lower_upper b), Hb. unfold lower at 1.
    by rewrite !map_app; fold (lower (upper a)); rewrite lower_upper.
  - intros [pre [post Hb]]. exists (upper pre), (upper post).
    rewrite <- (upper_lower b), Hb. unfold upper at 1.
    by rewrite !map_app; fold (upper (lower a)); rewrite upper_lower.
Qed.
End StrFacts.

(** ** The report counters (models/governance.py) *)

Lemma add_result_total_checks self r :
  total_checks (add_result self r) = total_checks self + 1.
Proof. unfold add_result. by destruct (passed r), (severity r). Qed.

Lemma add_result_tally self r :
  tally (add_result self r)
  = tally self + (if is_info_failure r then 0 else 1).
Proof.
  unfold add_result, tally, is_info_failure.
  destruct (passed r), (severity r); simpl; lia.
Qed.

Lemma add_result_results self r :
  results (add_result self r) = results self ++ [r].
Proof. unfold add_result. by destruct (passed r), (severity r). Qed.

Lemma add_result_total_models_checked self r :
  total_models_checked (add_result self r) = total_models_checked self.
Proof. unfold add_result. by destruct (passed r), (severity r). Qed.

Lemma add_results_snoc self rs r :
  add_results self (rs ++ [r]) = add_result (add_results self rs) r.
Proof. unfold add_results. by rewrite foldl_app. Qed.

Lemma add_results_results self rs :
  results (add_results self rs) = results self ++ rs.
Proof.
  induction rs as [|r rs IH] using rev_ind.
  - by rewrite app_nil_r.
  - by rewrite add_results_snoc, add_result_results, IH, app_assoc.
Qed.

Lemma add_results_total_models_checked self rs :
  total_models_checked (add_results self rs) = total_models_checked self.
Proof.
  induction rs as [|r rs IH] using rev_ind; [done|].
  by rewrite add_results_snoc, add_result_total_models_checked.
Qed.

Lemma info_failures_snoc rs r :
  info_failures (rs ++ [r])
  = info_failures rs + (if is_info_failure r then 1 else 0).
Proof.
  unfold info_failures. rewrite List.filter_app, length_app. simpl.
  destruct (is_info_failure r); simpl; lia.
Qed.

(** C1 (as the specification states it) fails: one failed check of
    severity [INFO] added to a fresh report is counted in [total_checks]
    and in none of [errors], [warnings], [passed]. *)
Lemma report_counter_invariant_info_fails :
  let r :=
    add_result ValidationReport_new
      {| rule_name := "naming_convention"; model_name := "m";
         model_unique_id := "model.p.m"; passed := false; severity := INFO;
         message := "bad prefix"; details := [] |} in
  errors r + warnings r + rep_passed r = 0 ∧ total_checks r = 1
  ∧ errors r + warnings r + rep_passed r ≠ total_checks r.
Proof. by vm_compute. Qed.

(** C1 (amended): for every report and every sequence of results appended
    with [add_result], [total_checks] grows by the number of results and
    [errors + warnings + passed] by the number of results that are not a
    failed [INFO] check; so on a report built from a fresh one,
    [errors + warnings + passed + (failed INFO checks) = total_checks]
    after every call, [errors + warnings + passed <= total_checks], with
    equality exactly when no failed [INFO] check was added. *)
Theorem report_counter_invariant (self : ValidationReport)
    (rs : list ValidationResult) :
  let r := add_results self rs in
  let r0 := add_results ValidationReport_new rs in
  total_checks r = total_checks self + Z.of_nat (length rs)
  ∧ tally r + info_failures rs = tally self + Z.of_nat (length rs)
  ∧ errors r0 + warnings r0 + rep_passed r0 + info_failures rs
    = total_checks r0
  ∧ errors r0 + warnings r0 + rep_passed r0 ≤ total_checks r0
  ∧ (errors r0 + warnings r0 + rep_passed r0 = total_checks r0
     ↔ List.filter is_info_failure rs = []).
Proof.
  assert (Hgen : ∀ s,
    total_checks (add_results s rs) = total_checks s + Z.of_nat (length rs)
    ∧ tally (add_results s rs) + info_failures rs
      = tally s + Z.of_nat (length rs)).
  { intros s. induction rs as [|x rs [IH1 IH2]] using rev_ind.
    - unfold info_failures. simpl. lia.
    - rewrite add_results_snoc, add_result_total_checks, add_result_tally,
        info_failures_snoc, length_app.
      simpl. destruct (is_info_failure x); lia. }
  intros r r0. destruct (Hgen self) as [H1 H2].
  destruct (Hgen ValidationReport_new) as [H3 H4].
  fold r in H1, H2. fold r0 in H3, H4. unfold tally in H4.
  change (total_checks ValidationReport_new) with 0 in H3.
  change (errors ValidationReport_new + warnings ValidationReport_new
          + rep_passed ValidationReport_new) with 0 in H4.
  assert (Hnn : 0 ≤ info_failures rs) by (unfold info_failures; lia).
  repeat split; try lia.
  - intros Heq. assert (Hz : info_failures rs = 0) by lia.
    unfold info_failures in Hz.
    destruct (List.filter is_info_failure rs); [done|simpl in Hz; lia].
  - intros Hnil. unfold info_failures in H4. rewrite Hnil in H4.
    simpl in H4. lia.
Qed.

(** ** Building and parsing identifiers (datahub/urn_mapper.py) *)

Section RegexFacts.
Import Str StrFacts.

(** A greedy group takes a whole run of characters other than [c] when
    the run is followed by [c] and the rest of the pattern matches from
    there. *)
Lemma star_not_run {R} c (k : string → string → option R) t acc rest r :
  lacks c t = true →
  k (acc +:+ t) (String c rest) = Some r →
  star_not c k acc (t +:+ String c rest) = Some r.
Proof.
  revert acc. induction t as [|a t IH]; intros acc Ht Hk.
  - rewrite app_nil_l. rewrite app_nil_r in Hk. simpl.
    by rewrite Ascii.eqb_refl.
  - rewrite app_cons. simpl in Ht |- *.
    apply andb_true_iff in Ht as [Ha Ht].
    apply negb_true_iff in Ha. rewrite Ha.
    rewrite (IH (acc +:+ String a "")); [done|done|].
    by rewrite app_assoc.
Qed.

Lemma re_match_group c p groups t rest r :
  truthy t = true →
  lacks c t = true →
  re_match_from p (t :: groups) (String c rest) = Some r →
  re_match_from (GroupNot c :: p) groups (t +:+ String c rest) = Some r.
Proof.
  intros Hne Ht Hk. destruct t as [|a t]; [done|].
  rewrite app_cons. simpl in Ht |- *.
  apply andb_true_iff in Ht as [Ha Ht].
  apply negb_true_iff in Ha. unfold plus_not. rewrite Ha.
  by apply star_not_run.
Qed.

Lemma re_match_lit l p groups s :
  re_match_from (Lit l :: p) groups (l +:+ s) = re_match_from p groups s.
Proof. simpl. by rewrite strip_prefix_app. Qed.

(** What [parse_urn] returns on a string of the template's shape. *)
Lemma parse_urn_template p n e tail :
  truthy p = true → lacks "," p = true →
  truthy n = true → lacks "," n = true →
  truthy e = true → lacks ")" e = true →
  parse_urn ("urn:li:dataset:(urn:li:dataPlatform:" +:+ p +:+ "," +:+ n
             +:+ "," +:+ e +:+ ")" +:+ tail)
  = [("platform", p); ("name", n); ("env", e)].
Proof.
  intros Hp1 Hp2 Hn1 Hn2 He1 He2. unfold parse_urn, re_match, urn_pattern.
  rewrite re_match_lit.
  change ("," +:+ n +:+ "," +:+ e +:+ ")" +:+ tail)
    with (String "," (n +:+ String "," (e +:+ String ")" tail))).
  rewrite (re_match_group "," _ [] p _ [p; n; e]); [done..|].
  change (String "," (n +:+ String "," (e +:+ String ")" tail)))
    with ("," +:+ n +:+ String "," (e +:+ String ")" tail)).
  rewrite re_match_lit.
  rewrite (re_match_group "," _ [p] n _ [p; n; e]); [done..|].
  change (String "," (e +:+ String ")" tail))
    with ("," +:+ e +:+ String ")" tail).
  rewrite re_match_lit.
  rewrite (re_match_group ")" _ [n; p] e _ [p; n; e]); [done..|].
  change (String ")" tail) with (")" +:+ tail).
  by rewrite re_match_lit.
Qed.
End RegexFacts.

Example parse_valid_urn :
  parse_urn
    "urn:li:dataset:(urn:li:dataPlatform:snowflake,MY_DB.MY_SCHEMA.MY_TABLE,PROD)"
  = [("platform", "snowflake"); ("name", "MY_DB.MY_SCHEMA.MY_TABLE");
     ("env", "PROD")].
Proof. reflexivity. Qed.

Example parse_invalid_urn :
  parse_urn "invalid-urn-format" = [("platform", ""); ("name", ""); ("env", "")].
Proof. reflexivity. Qed.

(** C3 (as the specification states it) fails: with a platform instance the
    name that [parse_urn] recovers is not the joined dataset name. *)
Lemma parse_build_with_instance_differs :
  let mapper := UrnMapper_init "snowflake" "PROD" (Some "my-account") None None in
  parse_urn (_build_urn_manual mapper "MY_DB.MY_SCHEMA.MY_TABLE")
  = [("platform", "snowflake");
     ("name", "my-account.MY_DB.MY_SCHEMA.MY_TABLE");
     ("env", "PROD")]
  ∧ dict_get "name" (parse_urn (_build_urn_manual mapper "MY_DB.MY_SCHEMA.MY_TABLE"))
    ≠ Some "MY_DB.MY_SCHEMA.MY_TABLE".
Proof. split; [reflexivity|by vm_compute]. Qed.

(** Nor does it hold without an instance when a component contains a
    separator of the template. *)
Example parse_build_comma_in_name :
  let mapper := UrnMapper_init "hive" "PROD" None None None in
  parse_urn (_build_urn_manual mapper "db.tbl,v2")
  = [("platform", "hive"); ("name", "db.tbl"); ("env", "v2,PROD")].
Proof. reflexivity. Qed.

Example parse_build_paren_in_env :
  let mapper := UrnMapper_init "hive" "PROD)x" None None None in
  parse_urn (_build_urn_manual mapper "db.tbl")
  = [("platform", "hive"); ("name", "db.tbl"); ("env", "PROD")].
Proof. reflexivity. Qed.

Example parse_build_empty_env :
  let mapper := UrnMapper_init "hive" "" None None None in
  parse_urn (_build_urn_manual mapper "db.tbl")
  = [("platform", ""); ("name", ""); ("env", "")].
Proof. reflexivity. Qed.

(** Without the SDK, [build_urn] is the template. *)
Lemma build_urn_without_sdk `{Environment} self dataset_name :
  mce_builder = None →
  build_urn self dataset_name = _build_urn_manual self dataset_name.
Proof. intros Hsdk. unfold build_urn. by rewrite Hsdk. Qed.

(** C3 (amended): when the mapper's platform, the embedded name and the
    environment are non-empty, the platform and the embedded name contain
    no comma and the environment no closing parenthesis, [parse_urn] of the
    identifier built by the template returns the mapper's platform (the
    configured one, lowercased), the embedded name (the dataset name, behind
    the platform instance and a dot when there is an instance) and the
    environment. *)
Theorem parse_build_roundtrip (p e : string) (inst cdb cs : option string)
    (dataset_name : string) :
  let mapper := UrnMapper_init p e inst cdb cs in
  Str.truthy p = true →
  Str.lacks "," p = true →
  Str.truthy (embedded_name mapper dataset_name) = true →
  Str.lacks "," (embedded_name mapper dataset_name) = true →
  Str.truthy e = true →
  Str.lacks ")" e = true →
  parse_urn (_build_urn_manual mapper dataset_name)
  = [("platform", Str.lower p);
     ("name", embedded_name mapper dataset_name);
     ("env", e)]
  ∧ platform mapper = Str.lower p
  ∧ (opt_truthy inst = false →
     embedded_name mapper dataset_name = dataset_name).
Proof.
  intros mapper Hp1 Hp2 Hn1 Hn2 He1 He2.
  assert (Hl1 : Str.truthy (Str.lower p) = true).
  { unfold Str.lower. by rewrite StrFacts.truthy_map. }
  assert (Hl2 : Str.lacks "," (Str.lower p) = true).
  { clear -Hp2. induction p as [|a p IH]; [done|].
    unfold Str.lacks, Str.lower in *. simpl in *.
    apply andb_true_iff in Hp2 as [Ha Hp]. rewrite (IH Hp), andb_true_r.
    clear -Ha. by destruct a as [[] [] [] [] [] [] [] []]. }
  split; [|split].
  - pose proof (parse_urn_template (Str.lower p)
                  (embedded_name mapper dataset_name) e "" Hl1 Hl2 Hn1 Hn2
                  He1 He2) as Hparse.
    rewrite <- Hparse. f_equal.
    unfold _build_urn_manual, embedded_name. simpl.
    destruct (opt_truthy inst); by rewrite ?StrFacts.app_assoc.
  - done.
  - unfold embedded_name. simpl. by intros ->.
Qed.

Lemma parse_build_roundtrip_witness :
  parse_urn
    (_build_urn_manual (UrnMapper_init "snowflake" "PROD" None None None)
       "ANALYTICS_DB.MARTS.DIM_CUSTOMERS")
  = [("platform", "snowflake"); ("name", "ANALYTICS_DB.MARTS.DIM_CUSTOMERS");
     ("env", "PROD")].
Proof.
  exact (proj1 (parse_build_roundtrip "snowflake" "PROD" None None None
                  "ANALYTICS_DB.MARTS.DIM_CUSTOMERS"
                  eq_refl eq_refl eq_refl eq_refl eq_refl eq_refl)).
Defined.

(** ** Dataset names (datahub/urn_mapper.py) *)

Lemma _normalize_name_truthy self n :
  Str.truthy (_normalize_name self n) = Str.truthy n.
Proof.
  unfold _normalize_name.
  destruct (str_in (platform self) UPPERCASE_PLATFORMS); [apply StrFacts.truthy_map|].
  destruct (str_in (platform self) LOWERCASE_PLATFORMS); [apply StrFacts.truthy_map|done].
Qed.

Lemma _normalize_name_empty self : _normalize_name self "" = "".
Proof.
  unfold _normalize_name.
  by destruct (str_in (platform self) UPPERCASE_PLATFORMS), (str_in (platform self) LOWERCASE_PLATFORMS).
Qed.

Lemma get_dataset_name_join self model :
  get_dataset_name self model = Str.join "." (name_components self model).
Proof.
  unfold get_dataset_name, name_components, raw_components.
  fold (effective_database self model). fold (effective_schema self model).
  destruct (String.eqb (platform self) "bigquery") eqn:Hbq; simpl.
  - destruct (Str.truthy (effective_database self model)) eqn:Hdb; [done|].
    destruct (effective_database self model); [|done].
    by rewrite _normalize_name_empty.
  - destruct (Str.truthy (effective_database self model)) eqn:Hdb; simpl.
    + rewrite _normalize_name_truthy, Hdb. by case_match.
    + by case_match.
Qed.

(** C4 (as the specification states it) fails: on BigQuery a model without
    a database is named [.schema.name], not [schema.name]. *)
Lemma bigquery_name_without_database :
  let mapper := UrnMapper_init "bigquery" "PROD" None None None in
  let model :=
    {| unique_id := "model.shop.orders"; name := "orders"; database := None;
       schema := "analytics"; description := None; resource_type := "model";
       package_name := "shop"; path := "marts/orders.sql";
       original_file_path := "models/marts/orders.sql"; depends_on := [];
       model_tags := []; meta := []; columns := []; config := [] |} in
  effective_database mapper model = ""
  ∧ get_dataset_name mapper model = ".analytics.orders"
  ∧ get_dataset_name mapper model ≠ "analytics.orders".
Proof. by vm_compute. Qed.

(** C4 (amended): for every mapper and model, the dataset name is the
    normalized [database.schema.name] when the effective database is
    non-empty and the normalized [schema.name] when it is empty, on every
    platform but [bigquery]; on [bigquery] it is always
    [database.schema.name], the database being the empty string when there
    is none. *)
Theorem get_dataset_name_join_rule (self : UrnMapper) (model : DbtModel) :
  let db := _normalize_name self (effective_database self model) in
  let sc := _normalize_name self (effective_schema self model) in
  let nm := _normalize_name self (name model) in
  get_dataset_name self model
  = if String.eqb (platform self) "bigquery" then db +:+ "." +:+ sc +:+ "." +:+ nm
    else if Str.truthy (effective_database self model)
         then db +:+ "." +:+ sc +:+ "." +:+ nm
         else sc +:+ "." +:+ nm.
Proof.
  intros db sc nm. rewrite get_dataset_name_join.
  unfold name_components, raw_components.
  by destruct (String.eqb (platform self) "bigquery"),
       (Str.truthy (effective_database self model)).
Qed.

(** ** Casing (datahub/urn_mapper.py) *)


Example casing_snowflake :
  get_dataset_name (UrnMapper_init "snowflake" "PROD" None None None)
    dim_customers = "ANALYTICS_DB.MARTS.DIM_CUSTOMERS".
Proof. reflexivity. Qed.

Example casing_postgres :
  get_dataset_name (UrnMapper_init "postgres" "PROD" None None None)
    dim_customers = "analytics_db.marts.dim_customers".
Proof. reflexivity. Qed.

Example casing_redshift :
  get_dataset_name (UrnMapper_init "redshift" "PROD" None None None)
    dim_customers = "Analytics_DB.Marts.Dim_Customers".
Proof. reflexivity. Qed.

(** ** The platform of a mapper (datahub/urn_mapper.py) *)


Example platform_mixed_case :
  _build_urn_manual (UrnMapper_init "SnowFlake" "PROD" None None None)
    (get_dataset_name (UrnMapper_init "SnowFlake" "PROD" None None None)
       dim_customers)
  = "urn:li:dataset:(urn:li:dataPlatform:snowflake,ANALYTICS_DB.MARTS.DIM_CUSTOMERS,PROD)".
Proof. reflexivity. Qed.

(** ** Model selection (rules/engine.py) *)

Section Selection.
Context `{Environment}.

Lemma matches_some_true model patterns :
  matches_some model patterns = true
  ↔ ∃ pattern, pattern ∈ patterns ∧ model_matches model pattern = true.
Proof.
  unfold model_matches. induction patterns as [|p ps IH]; simpl.
  - split; [done|]. by intros [q [?%elem_of_nil _]].
  - destruct (fnmatch (name model) p || fnmatch (path model) p) eqn:Hp.
    + split; [|done]. intros _. exists p. split; [left|done].
    + rewrite IH. split.
      * intros [q [Hq Hm]]. exists q. split; [by right|done].
      * intros [q [Hq Hm]]. apply elem_of_cons in Hq as [->|Hq].
        -- by rewrite Hp in Hm.
        -- by exists q.
Qed.

Lemma matches_some_false model patterns :
  matches_some model patterns = false
  ↔ ∀ pattern, pattern ∈ patterns → model_matches model pattern = false.
Proof.
  rewrite <- not_true_iff_false, matches_some_true. split.
  - intros Hno p Hp. apply not_true_iff_false. intros Hm. apply Hno. eauto.
  - intros Hall [p [Hp Hm]]. by rewrite (Hall p Hp) in Hm.
Qed.
End Selection.

(** C5: a model is selected exactly when it matches no exclude pattern and
    at least one include pattern, a pattern matching by the model's name or
    by its path; so a model that matches an exclude pattern is not selected,
    whatever the include patterns. *)
Theorem should_include_model_iff `{Environment} (self : GovernanceEngine)
    (model : DbtModel) :
  (_should_include_model self model = true
   ↔ (∀ pattern, pattern ∈ exclude_patterns (eng_config self) →
        fnmatch (name model) pattern = false
        ∧ fnmatch (path model) pattern = false)
     ∧ (∃ pattern, pattern ∈ include_patterns (eng_config self)
        ∧ (fnmatch (name model) pattern = true
           ∨ fnmatch (path model) pattern = true)))
  ∧ (∀ pattern, pattern ∈ exclude_patterns (eng_config self) →
       fnmatch (name model) pattern = true
       ∨ fnmatch (path model) pattern = true →
       _should_include_model self model = false).
Proof.
  unfold _should_include_model. split.
  - destruct (matches_some model (exclude_patterns (eng_config self))) eqn:Hex.
    + split; [done|]. intros [Hno _].
      apply matches_some_true in Hex as [p [Hp Hm]].
      destruct (Hno p Hp) as [Hn Hpth]. unfold model_matches in Hm.
      by rewrite Hn, Hpth in Hm.
    + pose proof (proj1 (matches_some_false _ _) Hex) as Hno.
      destruct (matches_some model (include_patterns (eng_config self)))
        eqn:Hin.
      * split; [intros _|done]. split.
        -- intros p Hp. by apply orb_false_iff, (Hno p Hp).
        -- apply matches_some_true in Hin as [p [Hp Hm]].
           exists p. split; [done|]. by apply orb_true_iff.
      * split; [done|]. intros [_ [p [Hp Hm]]].
        pose proof (proj1 (matches_some_false _ _) Hin p Hp) as Hf.
        unfold model_matches in Hf. apply orb_false_iff in Hf as [Hf1 Hf2].
        destruct Hm as [Hm|Hm]; congruence.
  - intros p Hp Hm.
    assert (Hex : matches_some model (exclude_patterns (eng_config self))
                  = true).
    { apply matches_some_true. exists p. split; [done|].
      by apply orb_true_iff. }
    by rewrite Hex.
Qed.

(** ** Status batching (rules/engine.py, datahub/client.py) *)

Section Batching.
Context `{Environment}.

(** The inner loop adds the identifier of every dependency that
    resolves. *)
Lemma urns_of_dependencies self (deps : list string) (urns : gset string) u :
  u ∈ foldl
        (λ urns dep_id,
           match get_model (manifest self) dep_id with
           | Some dep_model =>
               urns ∪ {[ model_to_urn (urn_mapper self) dep_model ]}
           | None => urns
           end)
        urns deps
  ↔ u ∈ urns
    ∨ ∃ dep_id dep_model,
        dep_id ∈ deps
        ∧ get_model (manifest self) dep_id = Some dep_model
        ∧ u = model_to_urn (urn_mapper self) dep_model.
Proof.
  revert urns. induction deps as [|d deps IH]; intros urns; simpl.
  - split; [by left|]. intros [?|[? [? [?%elem_of_nil _]]]]; done.
  - rewrite IH. destruct (get_model (manifest self) d) as [dm|] eqn:Hd.
    + rewrite elem_of_union, elem_of_singleton. split.
      * intros [[Hu|Hu]|[x [xm [Hx [Hg Hu]]]]].
        -- by left.
        -- right. exists d, dm. split; [left|done].
        -- right. exists x, xm. split; [by right|done].
      * intros [Hu|[x [xm [Hx [Hg Hu]]]]]; [by left; left|].
        apply elem_of_cons in Hx as [->|Hx].
        -- left; right. congruence.
        -- right. by exists x, xm.
    + split.
      * intros [Hu|[x [xm [Hx [Hg Hu]]]]]; [by left|].
        right. exists x, xm. split; [by right|done].
      * intros [Hu|[x [xm [Hx [Hg Hu]]]]]; [by left|].
        apply elem_of_cons in Hx as [->|Hx]; [congruence|].
        right. by exists x, xm.
Qed.

Lemma urns_of_models self (ms : list DbtModel) (urns : gset string) u :
  u ∈ foldl
        (λ urns model,
           foldl
             (λ urns dep_id,
                match get_model (manifest self) dep_id with
                | Some dep_model =>
                    urns ∪ {[ model_to_urn (urn_mapper self) dep_model ]}
                | None => urns
                end)
             (urns ∪ {[ model_to_urn (urn_mapper self) model ]})
             (depends_on model))
        urns ms
  ↔ u ∈ urns
    ∨ ∃ model, model ∈ ms
        ∧ (u = model_to_urn (urn_mapper self) model
           ∨ ∃ dep_id dep_model,
               dep_id ∈ depends_on model
               ∧ get_model (manifest self) dep_id = Some dep_model
               ∧ u = model_to_urn (urn_mapper self) dep_model).
Proof.
  revert urns. induction ms as [|m ms IH]; intros urns; simpl.
  - split; [by left|]. intros [?|[? [?%elem_of_nil _]]]; done.
  - rewrite IH, urns_of_dependencies, elem_of_union, elem_of_singleton.
    split.
    + intros [[[Hu|Hu]|Hdep]|[x [Hx Hu]]].
      * by left.
      * right. exists m. split; [left|by left].
      * right. exists m. split; [left|by right].
      * right. exists x. split; [by right|done].
    + intros [Hu|[x [Hx Hu]]]; [by left; left; left|].
      apply elem_of_cons in Hx as [->|Hx].
      * destruct Hu as [Hu|Hu]; [by left; left; right|by left; right].
      * right. by exists x.
Qed.

(** The keys of a dictionary after an assignment. *)
Lemma dict_keys_set {V} k (v : V) d :
  dict_keys (dict_set k v d)
  = if bool_decide (k ∈ dict_keys d) then dict_keys d
    else dict_keys d ++ [k].
Proof.
  induction d as [|[k' v'] d IH]; [done|]. simpl.
  destruct (String.eqb k' k) eqn:Hk.
  - apply String.eqb_eq in Hk as ->. simpl.
    rewrite bool_decide_eq_true_2; [done|left].
  - apply String.eqb_neq in Hk. simpl. unfold dict_keys in *. rewrite IH.
    destruct (bool_decide (k ∈ List.map fst d)) eqn:Hin.
    + apply bool_decide_eq_true_1 in Hin.
      rewrite bool_decide_eq_true_2; [done|by right].
    + apply bool_decide_eq_false_1 in Hin.
      rewrite bool_decide_eq_false_2; [done|].
      intros [?|?]%elem_of_cons; [congruence|done].
Qed.

(** A batch over distinct identifiers returns one entry per identifier,
    in the order asked. *)
Lemma batch_keys client (urns : list string) :
  NoDup urns →
  dict_keys (get_governance_status_batch client urns) = urns.
Proof.
  unfold get_governance_status_batch.
  cut (∀ acc : statuses, NoDup (dict_keys acc ++ urns) →
         dict_keys
           (foldl
              (λ results urn,
                 match get_governance_status client urn with
                 | Ok st => dict_set urn st results
                 | Raise _ => dict_set urn (status_default urn false) results
                 end)
              acc urns)
         = dict_keys acc ++ urns).
  { intros Hcut Hnd. by apply (Hcut []). }
  induction urns as [|u urns IH]; intros acc Hnd; simpl.
  - by rewrite app_nil_r.
  - assert (Hu : u ∉ dict_keys acc).
    { apply NoDup_app in Hnd as (_ & Hdis & _). intros Hin.
      apply (Hdis u Hin). left. }
    assert (Hnd' : NoDup ((dict_keys acc ++ [u]) ++ urns)).
    { by rewrite <- app_assoc. }
    destruct (get_governance_status client u) as [st|e];
      rewrite IH; rewrite dict_keys_set, bool_decide_eq_false_2 by done;
      by rewrite <- ?app_assoc.
Qed.
End Batching.

(** C6: the identifiers passed to the one batch call are the elements of
    the set [urns_to_fetch], without repetition, and an identifier is among
    them exactly when it is the identifier of a selected model or of a
    dependency of a selected model that resolves in the manifest; a
    dependency id that does not resolve adds nothing. The batch returns one
    status per identifier. *)
Theorem fetched_identifiers `{Environment} (self : GovernanceEngine)
    (selected : list DbtModel) :
  let fetched := elements (urns_to_fetch self selected) in
  _fetch_all_governance_statuses self selected
  = get_governance_status_batch (datahub_client self) fetched
  ∧ NoDup fetched
  ∧ dict_keys (_fetch_all_governance_statuses self selected) = fetched
  ∧ ∀ u, u ∈ fetched
      ↔ ∃ model, model ∈ selected
          ∧ (u = model_to_urn (urn_mapper self) model
             ∨ ∃ dep_id dep_model,
                 dep_id ∈ depends_on model
                 ∧ get_model (manifest self) dep_id = Some dep_model
                 ∧ u = model_to_urn (urn_mapper self) dep_model).
Proof.
  intros fetched. split; [done|]. split; [apply NoDup_elements|].
  split; [apply batch_keys, NoDup_elements|].
  intros u. unfold fetched. rewrite elem_of_elements.
  unfold urns_to_fetch. rewrite urns_of_models. split.
  - by intros [?%elem_of_empty|?].
  - by right.
Qed.

(** ** Running the rules (rules/engine.py) *)

(** Indexing a concatenation of blocks of the same length [n]: block [i],
    position [j]. *)
Lemma flat_map_lookup_uniform {A B} (f : A → list B) (n : nat) (l : list A)
    (i j : nat) (x : A) :
  (∀ a, length (f a) = n) →
  l !! i = Some x →
  (j < n)%nat →
  flat_map f l !! (i * n + j)%nat = f x !! j.
Proof.
  intros Hlen. revert i. induction l as [|a l IH]; intros i Hi Hj; [done|].
  simpl. destruct i as [|i]; simpl in *.
  - inversion Hi; subst. apply lookup_app_l. by rewrite Hlen.
  - rewrite lookup_app_r; rewrite Hlen; [|lia].
    replace (n + i * n + j - n)%nat with (i * n + j)%nat by lia. by apply IH.
Qed.

Lemma flat_map_length_uniform {A B} (f : A → list B) (n : nat) (l : list A) :
  (∀ a, length (f a) = n) → length (flat_map f l) = (length l * n)%nat.
Proof.
  intros Hlen. induction l as [|a l IH]; [done|].
  simpl. rewrite length_app, Hlen, IH. lia.
Qed.

Section Validation.
Context `{Environment}.

Lemma run_rule_outcome self all_statuses model report rule :
  run_rule self model
    (status_of all_statuses (model_to_urn (urn_mapper self) model))
    all_statuses report rule
  = add_result report (outcome self all_statuses model rule).
Proof. unfold run_rule, outcome. by case_match. Qed.

Lemma run_rules_outcomes self all_statuses model report rules :
  foldl
    (run_rule self model
       (status_of all_statuses (model_to_urn (urn_mapper self) model))
       all_statuses)
    report rules
  = add_results report (List.map (outcome self all_statuses model) rules).
Proof.
  revert report. induction rules as [|r rules IH]; intros report; [done|].
  simpl. by rewrite run_rule_outcome, IH.
Qed.

Lemma validate_add_results self :
  let selected := models_to_validate self in
  let all_statuses := _fetch_all_governance_statuses self selected in
  validate self
  = add_results
      (set_total_models_checked (Z.of_nat (length selected))
         ValidationReport_new)
      (flat_map
         (λ model, List.map (outcome self all_statuses model) (_rules self))
         selected).
Proof.
  intros selected all_statuses. unfold validate. cbv zeta.
  fold selected. fold all_statuses. clearbody all_statuses.
  generalize (set_total_models_checked (Z.of_nat (length selected))
                ValidationReport_new).
  clearbody selected.
  induction selected as [|m ms IH]; intros report; [done|].
  simpl. rewrite run_rules_outcomes, IH.
  unfold add_results. by rewrite foldl_app.
Qed.

Lemma validate_results self :
  let selected := models_to_validate self in
  let all_statuses := _fetch_all_governance_statuses self selected in
  results (validate self)
  = flat_map
      (λ model, List.map (outcome self all_statuses model) (_rules self))
      selected.
Proof.
  intros selected all_statuses.
  by rewrite validate_add_results, add_results_results.
Qed.

Lemma validate_total_models_checked self :
  total_models_checked (validate self)
  = Z.of_nat (length (models_to_validate self)).
Proof.
  by rewrite validate_add_results, add_results_total_models_checked.
Qed.
End Validation.

(** C2: [validate] returns a report with one outcome per (selected model,
    rule) pair, model by model and rule by rule. The outcome of a pair is
    the result of the rule on that model when the rule returns, and when the
    rule raises [e] it is a failed outcome of severity [ERROR] whose message
    is ["Rule execution error: " + e] and whose details are
    [{"error": e}]; either way it depends on that pair alone, so a rule that
    raises on one model changes no other outcome. *)
Theorem rule_isolation `{Environment} (self : GovernanceEngine) (i j : nat)
    (model : DbtModel) (rule : BaseRule) :
  models_to_validate self !! i = Some model →
  _rules self !! j = Some rule →
  let all_statuses :=
    _fetch_all_governance_statuses self (models_to_validate self) in
  let status :=
    status_of all_statuses (model_to_urn (urn_mapper self) model) in
  length (results (validate self))
  = (length (models_to_validate self) * length (_rules self))%nat
  ∧ results (validate self) !! (i * length (_rules self) + j)%nat
    = Some
        match br_validate rule model status (manifest self) all_statuses with
        | Ok result => result
        | Raise e =>
            {| rule_name := br_rule_name rule;
               model_name := name model;
               model_unique_id := unique_id model;
               passed := false;
               severity := ERROR;
               message := "Rule execution error: " +:+ e;
               details := [("error", VStr e)] |}
        end.
Proof.
  intros Hi Hj all_statuses status. rewrite validate_results. split.
  - apply flat_map_length_uniform. intros m. by rewrite length_map.
  - rewrite (flat_map_lookup_uniform _ (length (_rules self)) _ i j model);
      [|intros m; by rewrite length_map|done|by eapply lookup_lt_Some].
    rewrite list_lookup_fmap_Some. exists rule. split; [reflexivity|done].
Qed.

(** ** Looking up a single model (rules/engine.py) *)

Lemma get_model_by_name_None manifest n :
  Forall (λ entry, name entry.2 ≠ n) (models manifest) →
  get_model_by_name manifest n = None.
Proof.
  unfold get_model_by_name, dict_values.
  induction 1 as [|[k m] ms Hm _ IH]; [done|]. simpl in *.
  by apply String.eqb_neq in Hm as ->.
Qed.

(** C8: when no model of the manifest has the name asked for,
    [validate_single_model] raises nothing and returns a report with
    [total_models_checked = 0], [has_errors] true and one outcome: rule name
    ["model_lookup"], not passed, severity [ERROR]. *)
Theorem validate_single_model_unknown `{Environment} (self : GovernanceEngine)
    (model_name : string) :
  Forall (λ entry, name entry.2 ≠ model_name) (models (manifest self)) →
  ∃ report,
    validate_single_model self model_name = Ok report
    ∧ total_models_checked report = 0
    ∧ has_errors report = true
    ∧ errors report = 1
    ∧ total_checks report = 1
    ∧ results report
      = [ {| rule_name := "model_lookup";
             model_name := model_name;
             model_unique_id := "";
             passed := false;
             severity := ERROR;
             message := "Model not found in manifest: " +:+ model_name;
             details := [] |} ].
Proof.
  intros Hno. unfold validate_single_model.
  rewrite (get_model_by_name_None _ _ Hno). eexists. by split.
Qed.

(** ** The rule [no_deprecated_upstream] (rules/builtin.py) *)

Lemma name_in_urn_spec n u :
  name_in_urn n u = true ↔ occurs_ignoring_case n u.
Proof.
  unfold name_in_urn, occurs_ignoring_case.
  by rewrite StrFacts.py_in_upper_lower, orb_diag, StrFacts.py_in_spec.
Qed.

Lemma deprecated_upstreams_spec model manifest
    (all_statuses : list (string * DatasetGovernanceStatus)) n u note :
  (n, u, note) ∈ deprecated_upstreams model manifest all_statuses
  ↔ ∃ dep_id dep_model dep_status,
      dep_id ∈ depends_on model
      ∧ get_model manifest dep_id = Some dep_model
      ∧ (u, dep_status) ∈ all_statuses
      ∧ exists_ dep_status = true
      ∧ is_deprecated dep_status = true
      ∧ occurs_ignoring_case (name dep_model) u
      ∧ n = name dep_model
      ∧ note = deprecation_note dep_status.
Proof.
  unfold deprecated_upstreams. rewrite list_elem_of_In, List.in_flat_map.
  split.
  - intros [dep_id [Hdep Hin]].
    destruct (get_model manifest dep_id) as [dm|] eqn:Hdm; [|done].
    apply List.in_flat_map in Hin as [[u' st] [Hst Hin]].
    destruct (exists_ st) eqn:Hex; [|done].
    destruct (is_deprecated st) eqn:Hdp; [|done]. simpl in Hin.
    destruct (name_in_urn (name dm) u') eqn:Hocc; [|done].
    destruct Hin as [Heq|[]]. inversion Heq; subst.
    exists dep_id, dm, st. repeat split; try done.
    + by apply list_elem_of_In.
    + by apply list_elem_of_In.
    + by apply name_in_urn_spec.
  - intros (dep_id & dm & st & Hdep & Hdm & Hst & Hex & Hdp & Hocc & -> & ->).
    exists dep_id. split; [by apply list_elem_of_In|]. rewrite Hdm.
    apply List.in_flat_map. exists (u, st). split; [by apply list_elem_of_In|].
    rewrite Hex, Hdp. simpl.
    apply name_in_urn_spec in Hocc. rewrite Hocc. by left.
Qed.


(** ** A worked run *)

Example shop_selected :
  @models_to_validate no_sdk shop_engine = [dim_customers; fct_orders].
Proof. reflexivity. Qed.

Example shop_rules :
  List.map br_rule_name (_rules shop_engine)
  = ["broken"; "no_deprecated_upstream"].
Proof. reflexivity. Qed.

Example shop_validate_summary :
  let report := @validate no_sdk shop_engine in
  total_models_checked report = 2 ∧ total_checks report = 4
  ∧ rep_passed report = 2 ∧ errors report = 2 ∧ warnings report = 0
  ∧ List.map (λ r, (model_name r, rule_name r, passed r, severity r))
      (results report)
    = [ ("Dim_Customers", "broken", false, ERROR);
        ("Dim_Customers", "no_deprecated_upstream", true, ERROR);
        ("fct_orders", "broken", true, WARNING);
        ("fct_orders", "no_deprecated_upstream", false, ERROR) ].
Proof. vm_compute. repeat split. Qed.

Lemma rule_isolation_witness :
  length (results (@validate no_sdk shop_engine)) = 4%nat
  ∧ results (@validate no_sdk shop_engine) !! 0%nat
    = Some {| rule_name := "broken";
              model_name := "Dim_Customers";
              model_unique_id := "model.shop.dim_customers";
              passed := false;
              severity := ERROR;
              message := "Rule execution error: boom";
              details := [("error", VStr "boom")] |}.
Proof.
  exact (@rule_isolation no_sdk shop_engine 0 0 dim_customers
           (BrokenRule (rule_config "broken" WARNING)) eq_refl eq_refl).
Defined.

(** The other pairs of the same run keep their outcomes. *)
Example shop_other_pairs :
  results (@validate no_sdk shop_engine) !! 2%nat
  = Some (_create_result "broken" (rule_config "broken" WARNING) fct_orders
            true "fine" [])
  ∧ List.map passed (results (@validate no_sdk shop_engine))
    = [false; true; true; false].
Proof. by vm_compute. Qed.

Lemma validate_single_model_unknown_witness :
  ∃ report,
    @validate_single_model no_sdk shop_engine "ghost_model" = Ok report
    ∧ total_models_checked report = 0
    ∧ has_errors report = true
    ∧ errors report = 1
    ∧ total_checks report = 1
    ∧ results report
      = [ {| rule_name := "model_lookup";
             model_name := "ghost_model";
             model_unique_id := "";
             passed := false;
             severity := ERROR;
             message := "Model not found in manifest: ghost_model";
             details := [] |} ].
Proof.
  apply (@validate_single_model_unknown no_sdk shop_engine "ghost_model").
  repeat (constructor; [discriminate|]). constructor.
Defined.

(** Selection on the worked run: the exclude pattern wins. *)
Example shop_staging_excluded :
  @_should_include_model no_sdk shop_engine stg_customers = false
  ∧ @_should_include_model no_sdk shop_engine fct_orders = true.
Proof. by vm_compute. Qed.

(** The identifiers fetched for the two selected models: their own, and
    nothing for the dependency ids that resolve to no model. *)
Example shop_fetched :
  ∀ u, u ∈ elements
             (@urns_to_fetch no_sdk shop_engine [dim_customers; fct_orders])
       ↔ u = dim_customers_urn ∨ u = fct_orders_urn
         ∨ u = "urn:li:dataset:(urn:li:dataPlatform:snowflake,ANALYTICS_DB.STAGING.STG_CUSTOMERS,PROD)".
Proof.
  intros u. rewrite elem_of_elements. unfold urns_to_fetch. simpl.
  rewrite !elem_of_union, !elem_of_singleton, elem_of_empty.
  vm_compute model_to_urn. tauto.
Qed.

(** The deprecated upstream of [fct_orders] is reported with its note. *)
Example shop_deprecated_upstream :
  let r :=
    no_deprecated_upstream_validate
      (rule_config "no_deprecated_upstream" ERROR) fct_orders
      (status_default fct_orders_urn true) shop_manifest shop_catalog in
  passed r = false
  ∧ message r = "Model depends on deprecated datasets: Dim_Customers"
  ∧ details r
    = [("deprecated_upstreams",
        VList [VDict [("name", VStr "Dim_Customers");
                      ("urn", VStr dim_customers_urn);
                      ("note", VStr "Deprecated: use X")]])].
Proof. by vm_compute. Qed.



(** Selection on the worked run, through the characterization. *)
Lemma should_include_model_iff_witness :
  @_should_include_model no_sdk shop_engine stg_customers = false
  ∧ @_should_include_model no_sdk shop_engine fct_orders = true.
Proof.
  split.
  - destruct (@should_include_model_iff no_sdk shop_engine stg_customers)
      as [_ Hexcluded].
    apply (Hexcluded "stg_*"); [left|by left].
  - destruct (@should_include_model_iff no_sdk shop_engine fct_orders)
      as [Hiff _].
    apply Hiff. split.
    + intros pattern ->%list_elem_of_singleton. by split.
    + exists "*". split; [left|by left].
Defined.


(* ===================================================================== *)
(** * Part III: further properties of the package *)
(* ===================================================================== *)

(** ** The report and its queries (models/governance.py) *)

Lemma add_result_errors self r :
  errors (add_result self r) = errors self + (if is_error r then 1 else 0).
Proof.
  unfold add_result, is_error. destruct (passed r), (severity r); simpl; lia.
Qed.

Lemma add_result_warnings self r :
  warnings (add_result self r)
  = warnings self + (if is_warning r then 1 else 0).
Proof.
  unfold add_result, is_warning. destruct (passed r), (severity r); simpl; lia.
Qed.

Lemma add_result_passed self r :
  rep_passed (add_result self r)
  = rep_passed self + (if passed r then 1 else 0).
Proof. unfold add_result. destruct (passed r), (severity r); simpl; lia. Qed.

Lemma filter_snoc_length {A} (f : A → bool) (l : list A) (x : A) :
  Z.of_nat (length (List.filter f (l ++ [x])))
  = Z.of_nat (length (List.filter f l)) + (if f x then 1 else 0).
Proof.
  rewrite List.filter_app, length_app. simpl. destruct (f x); simpl; lia.
Qed.

Lemma add_results_counters self rs :
  errors (add_results self rs)
  = errors self + Z.of_nat (length (List.filter is_error rs))
  ∧ warnings (add_results self rs)
    = warnings self + Z.of_nat (length (List.filter is_warning rs))
  ∧ rep_passed (add_results self rs)
    = rep_passed self + Z.of_nat (length (List.filter passed rs))
  ∧ total_checks (add_results self rs)
    = total_checks self + Z.of_nat (length rs).
Proof.
  induction rs as [|x rs (IH1 & IH2 & IH3 & IH4)] using rev_ind.
  - simpl. repeat split; lia.
  - rewrite add_results_snoc, add_result_errors, add_result_warnings,
      add_result_passed, add_result_total_checks, !filter_snoc_length,
      length_app.
    simpl. repeat split; lia.
Qed.

(** X1: on a report filled by [add_result] from a fresh one, each counter
    is the length of the list its query returns: [errors] of
    [get_errors()], [warnings] of [get_warnings()], [passed] of the passed
    results and [total_checks] of [results], which holds the results in the
    order they were added. *)
Theorem counters_match_queries (rs : list ValidationResult) :
  let r := add_results ValidationReport_new rs in
  results r = rs
  ∧ total_checks r = Z.of_nat (length (results r))
  ∧ errors r = Z.of_nat (length (get_errors r))
  ∧ warnings r = Z.of_nat (length (get_warnings r))
  ∧ rep_passed r = Z.of_nat (length (List.filter passed (results r)))
  ∧ (has_errors r = true ↔ get_errors r ≠ [])
  ∧ (has_warnings r = true ↔ get_warnings r ≠ []).
Proof.
  intros r.
  assert (Hres : results r = rs) by apply add_results_results.
  destruct (add_results_counters ValidationReport_new rs)
    as (He & Hw & Hp & Ht).
  fold r in He, Hw, Hp, Ht. simpl in He, Hw, Hp, Ht.
  unfold get_errors, get_warnings, has_errors, has_warnings.
  rewrite Hres, He, Hw, Hp, Ht.
  repeat split; try done.
  - intros Hlt%Z.ltb_lt Hnil. rewrite Hnil in Hlt. simpl in Hlt. lia.
  - intros Hne. apply Z.ltb_lt.
    destruct (List.filter is_error rs); [done|simpl; lia].
  - intros Hlt%Z.ltb_lt Hnil. rewrite Hnil in Hlt. simpl in Hlt. lia.
  - intros Hne. apply Z.ltb_lt.
    destruct (List.filter is_warning rs); [done|simpl; lia].
Qed.

(** ** The exit code (cli.py) *)

(** X2: for a report filled by [add_result] from a fresh one, the command
    exits with 0 exactly when no result is an error and, if
    [fail_on_warnings] is set, none is a warning; otherwise it exits with 1.
    Passed results and failed results of severity [INFO] never change the
    exit code. *)
Theorem exit_code_spec (governance_config : GovernanceConfig)
    (rs : list ValidationResult) :
  let r := add_results ValidationReport_new rs in
  (exit_code governance_config r = 0
   ↔ Forall (λ x, is_error x = false) rs
     ∧ (fail_on_warnings governance_config = true →
        Forall (λ x, is_warning x = false) rs))
  ∧ (exit_code governance_config r = 0 ∨ exit_code governance_config r = 1)
  ∧ exit_code governance_config r
    = exit_code governance_config
        (add_results ValidationReport_new
           (List.filter (λ x, is_error x || is_warning x) rs)).
Proof.
  intros r.
  assert (Hcount : ∀ (f : ValidationResult → bool) l,
            (0 <? 0 + Z.of_nat (length (List.filter f l))) = existsb f l).
  { intros f l. induction l as [|x l IH]; [done|]. simpl.
    destruct (f x); simpl; [|done]. apply Z.ltb_lt. lia. }
  assert (Hex : ∀ l, exit_code governance_config
                       (add_results ValidationReport_new l)
                     = if existsb is_error l then 1
                       else if fail_on_warnings governance_config
                               && existsb is_warning l then 1
                       else 0).
  { intros l. unfold exit_code, has_errors, has_warnings.
    destruct (add_results_counters ValidationReport_new l)
      as (He & Hw & _ & _).
    rewrite He, Hw. simpl errors. simpl warnings. by rewrite !Hcount. }
  assert (Hall : ∀ (f : ValidationResult → bool) l,
            existsb f l = false ↔ Forall (λ x, f x = false) l).
  { intros f l. induction l as [|x l IH]; simpl.
    - split; [constructor|done].
    - rewrite orb_false_iff, IH. split.
      + intros [??]. by constructor.
      + by inversion 1. }
  split; [|split].
  - unfold r. rewrite Hex.
    destruct (existsb is_error rs) eqn:He.
    + split; [done|]. intros [Hno _]. apply Hall in Hno. congruence.
    + apply Hall in He.
      destruct (fail_on_warnings governance_config); simpl.
      * destruct (existsb is_warning rs) eqn:Hw.
        -- split; [done|]. intros [_ Hno]. specialize (Hno eq_refl).
           apply Hall in Hno. congruence.
        -- apply Hall in Hw. by split.
      * split; [|done]. intros _. by split.
  - unfold r. rewrite Hex.
    destruct (existsb is_error rs),
      (fail_on_warnings governance_config && existsb is_warning rs); auto.
  - unfold r. rewrite !Hex.
    assert (Hf : ∀ f : ValidationResult → bool,
              (∀ x, f x = true → (is_error x || is_warning x) = true) →
              existsb f (List.filter (λ x, is_error x || is_warning x) rs)
              = existsb f rs).
    { intros f Hsub. induction rs as [|x l IH]; [done|]. simpl.
      destruct (is_error x || is_warning x) eqn:Hx; simpl; rewrite IH.
      - done.
      - destruct (f x) eqn:Hfx; [|done]. apply Hsub in Hfx. congruence. }
    rewrite !Hf; [done|..].
    + intros x ->. apply orb_true_r.
    + by intros x ->.
Qed.

(** ** Severities (models/governance.py) *)



(** ** Serialization of details (models/governance.py) *)

Section PyobjInduction.
Variable P : pyobj → Prop.
Hypothesis HNone : P ONone.
Hypothesis HBool : ∀ b, P (OBool b).
Hypothesis HInt : ∀ n, P (OInt n).
Hypothesis HFloat : ∀ r, P (OFloat r).
Hypothesis HStr : ∀ s, P (OStr s).
Hypothesis HList : ∀ l, Forall P l → P (OList l).
Hypothesis HDict : ∀ d, Forall (λ kv, P kv.2) d → P (ODict d).
Hypothesis HOther : ∀ s, P (OOther s).

Fixpoint pyobj_nested_ind (o : pyobj) : P o :=
  match o with
  | ONone => HNone
  | OBool b => HBool b
  | OInt n => HInt n
  | OFloat r => HFloat r
  | OStr s => HStr s
  | OList l =>
      HList l
        ((fix go (l : list pyobj) : Forall P l :=
            match l with
            | [] => @List.Forall_nil _ P
            | x :: l' =>
                @List.Forall_cons _ P x l' (pyobj_nested_ind x) (go l')
            end) l)
  | ODict d =>
      HDict d
        ((fix go (d : list (string * pyobj)) : Forall (λ kv, P kv.2) d :=
            match d with
            | [] => @List.Forall_nil _ _
            | (k, v) :: d' =>
                @List.Forall_cons _ (λ kv, P kv.2) (k, v) d'
                  (pyobj_nested_ind v) (go d')
            end) d)
  | OOther s => HOther s
  end.
End PyobjInduction.



(** ** Looking models up (models/dbt_models.py) *)

(** X5: [get_model_by_name] finds a model exactly when the name is among
    [get_all_model_names()]; the model it returns has that name and is the
    first such model in the order of the manifest. *)
Theorem get_model_by_name_spec (self : DbtManifest) (n : string) :
  (is_Some (get_model_by_name self n) ↔ n ∈ get_all_model_names self)
  ∧ ∀ model, get_model_by_name self n = Some model →
      name model = n
      ∧ ∃ before after,
          dict_values (models self) = before ++ model :: after
          ∧ Forall (λ other, name other ≠ n) before.
Proof.
  unfold get_model_by_name, get_all_model_names.
  generalize (dict_values (models self)). intros l. split.
  - induction l as [|x l IH]; simpl.
    + split; [by intros [? ?]|by intros ?%elem_of_nil].
    + destruct (String.eqb (name x) n) eqn:Hx.
      * apply String.eqb_eq in Hx. split; [intros _; rewrite Hx; left|eauto].
      * apply String.eqb_neq in Hx. rewrite IH. split.
        -- intros Hin. by right.
        -- by intros [?|?]%elem_of_cons.
  - induction l as [|x l IH]; intros model Hfind; simpl in Hfind; [done|].
    destruct (String.eqb (name x) n) eqn:Hx.
    + inversion Hfind; subst. apply String.eqb_eq in Hx. split; [done|].
      by exists [], l.
    + apply String.eqb_neq in Hx.
      destruct (IH model Hfind) as (Hn & before & after & -> & Hbefore).
      split; [done|]. exists (x :: before), after. split; [done|].
      by constructor.
Qed.

Lemma get_model_by_name_spec_witness :
  get_model_by_name shop_manifest "fct_orders" = Some fct_orders
  ∧ name fct_orders = "fct_orders".
Proof.
  split; [reflexivity|].
  destruct (get_model_by_name_spec shop_manifest "fct_orders") as [_ Hfound].
  exact (proj1 (Hfound fct_orders eq_refl)).
Defined.

Lemma startswith_spec s p :
  startswith s p = true ↔ ∃ rest, s = p +:+ rest.
Proof.
  unfold startswith. destruct (Str.strip_prefix p s) as [r|] eqn:Hr.
  - split; [|done]. intros _. exists r. by apply StrFacts.strip_prefix_Some.
  - split; [done|]. intros [rest ->].
    by rewrite StrFacts.strip_prefix_app in Hr.
Qed.

Lemma get_upstream_models_spec (self : DbtManifest) (model up : DbtModel) :
  up ∈ get_upstream_models self model
  ↔ ∃ dep_id, dep_id ∈ depends_on model
      ∧ startswith dep_id "model." = true
      ∧ get_model self dep_id = Some up.
Proof.
  unfold get_upstream_models, get_model.
  rewrite list_elem_of_In, List.in_flat_map. split.
  - intros [dep_id [Hdep Hin]]. exists dep_id.
    destruct (startswith dep_id "model."); [|done].
    destruct (dict_get dep_id (models self)) as [m|]; [|done].
    destruct Hin as [->|[]]. split; [by apply list_elem_of_In|done].
  - intros (dep_id & Hdep & Hpre & Hget). exists dep_id.
    split; [by apply list_elem_of_In|]. rewrite Hpre, Hget. by left.
Qed.

(** X6: every model returned by [get_upstream_models] is a dependency whose
    identifier the engine fetches for the model, and there are at most as
    many as dependency ids; when every dependency id that resolves starts
    with ["model."], the identifiers the engine fetches for the model are
    exactly its own and those of [get_upstream_models]. *)
Theorem upstream_models_are_fetched `{Environment} (self : GovernanceEngine)
    (model : DbtModel) :
  (∀ up, up ∈ get_upstream_models (manifest self) model →
     model_to_urn (urn_mapper self) up ∈ urns_to_fetch self [model])
  ∧ (length (get_upstream_models (manifest self) model)
     ≤ length (depends_on model))%nat
  ∧ ((∀ dep_id, dep_id ∈ depends_on model →
        is_Some (get_model (manifest self) dep_id) →
        startswith dep_id "model." = true) →
     ∀ u, u ∈ urns_to_fetch self [model]
       ↔ u = model_to_urn (urn_mapper self) model
         ∨ ∃ up, up ∈ get_upstream_models (manifest self) model
             ∧ u = model_to_urn (urn_mapper self) up).
Proof.
  assert (Hfetch : ∀ u, u ∈ urns_to_fetch self [model]
            ↔ u = model_to_urn (urn_mapper self) model
              ∨ ∃ dep_id dep_model,
                  dep_id ∈ depends_on model
                  ∧ get_model (manifest self) dep_id = Some dep_model
                  ∧ u = model_to_urn (urn_mapper self) dep_model).
  { intros u. unfold urns_to_fetch. rewrite urns_of_models. split.
    - intros [?%elem_of_empty|[m [->%list_elem_of_singleton Hm]]]; done.
    - intros Hu. right. exists model. split; [left|done]. }
  split; [|split].
  - intros up (dep_id & Hdep & _ & Hget)%get_upstream_models_spec.
    apply Hfetch. right. by exists dep_id, up.
  - clear Hfetch. unfold get_upstream_models.
    induction (depends_on model) as [|d ds IH]; [done|]. simpl.
    rewrite length_app.
    destruct (startswith d "model."); [|simpl; lia].
    destruct (dict_get d (models (manifest self))); simpl; lia.
  - intros Hprefix u. rewrite Hfetch. split.
    + intros [->|(dep_id & dm & Hdep & Hget & ->)]; [by left|].
      right. exists dm. split; [|done]. apply get_upstream_models_spec.
      exists dep_id. split; [done|]. split; [|done].
      apply Hprefix; [done|]. by rewrite Hget.
    + intros [->|(up & (dep_id & Hdep & _ & Hget)%get_upstream_models_spec
                    & ->)]; [by left|].
      right. by exists dep_id, up.
Qed.

Lemma upstream_models_are_fetched_witness :
  dim_customers_urn ∈ @urns_to_fetch no_sdk shop_engine [fct_orders].
Proof.
  destruct (@upstream_models_are_fetched no_sdk shop_engine fct_orders)
    as (Hup & _).
  apply (Hup dim_customers). left.
Defined.

(** ** More on identifiers (datahub/urn_mapper.py, models/dbt_models.py) *)

Lemma _normalize_name_app self a b :
  _normalize_name self (a +:+ b)
  = _normalize_name self a +:+ _normalize_name self b.
Proof.
  unfold _normalize_name, Str.upper, Str.lower.
  destruct (str_in (platform self) UPPERCASE_PLATFORMS);
    [apply StrFacts.map_app|].
  destruct (str_in (platform self) LOWERCASE_PLATFORMS);
    [apply StrFacts.map_app|done].
Qed.

Lemma _normalize_name_dot self : _normalize_name self "." = ".".
Proof.
  unfold _normalize_name.
  by destruct (str_in (platform self) UPPERCASE_PLATFORMS),
       (str_in (platform self) LOWERCASE_PLATFORMS).
Qed.

Lemma opt_or_str_truthy o :
  Str.truthy (opt_or_str o "") = opt_truthy o.
Proof. destruct o as [[|]|]; done. Qed.

Lemma opt_or_falsy_l a b : opt_truthy a = false → opt_or a b = b.
Proof. unfold opt_or. by intros ->. Qed.

Lemma opt_or_str_falsy a s : opt_truthy a = false → opt_or_str a s = s.
Proof. by destruct a as [[|]|]. Qed.



(** X8: a source described by the name, database and schema of a model is
    mapped to the identifier of that model, when the mapper has no
    overrides, the schema is not empty and the platform is not [bigquery]
    or the database is given. *)
Theorem source_to_urn_agrees_with_model `{Environment} (self : UrnMapper)
    (model : DbtModel) :
  opt_truthy (custom_database self) = false →
  opt_truthy (custom_schema self) = false →
  Str.truthy (schema model) = true →
  String.eqb (platform self) "bigquery" = false
  ∨ opt_truthy (database model) = true →
  source_to_urn self (name model) (database model) (Some (schema model))
  = model_to_urn self model.
Proof.
  intros Hcd Hcs Hsc Hbq.
  assert (Hdb_eff : opt_or_str (opt_or (database model) (custom_database self)) ""
                    = opt_or_str (database model) "").
  { destruct (database model) as [[|]|]; try done; unfold opt_or; simpl;
      by rewrite opt_or_str_falsy. }
  assert (Hsc_eff : opt_or_str (opt_or (Some (schema model)) (custom_schema self)) ""
                    = schema model).
  { unfold opt_or. simpl. rewrite Hsc. simpl. by rewrite Hsc. }
  unfold source_to_urn, model_to_urn. cbv zeta. f_equal.
  rewrite Hdb_eff, Hsc_eff, Hsc, opt_or_str_truthy.
  rewrite get_dataset_name_join.
  unfold name_components, raw_components, effective_database,
    effective_schema.
  rewrite (opt_or_falsy_l _ _ Hcd), (opt_or_str_falsy _ _ Hcs),
    opt_or_str_truthy.
  destruct (opt_truthy (database model)) eqn:Hdb.
  - rewrite orb_true_r. simpl.
    by rewrite !_normalize_name_truthy, opt_or_str_truthy, Hdb, Hsc.
  - destruct Hbq as [Hbq|Hbq]; [|done]. rewrite Hbq. simpl.
    by rewrite _normalize_name_truthy, Hsc.
Qed.

Lemma source_to_urn_agrees_with_model_witness :
  @source_to_urn no_sdk (UrnMapper_init "snowflake" "PROD" None None None)
    "Dim_Customers" (Some "Analytics_DB") (Some "Marts")
  = dim_customers_urn.
Proof.
  exact (@source_to_urn_agrees_with_model no_sdk
           (UrnMapper_init "snowflake" "PROD" None None None) dim_customers
           eq_refl eq_refl eq_refl (or_introl eq_refl)).
Defined.

(** X9: when a source has no schema (neither given nor configured on the
    mapper), its identifier is built from the normalized source name alone:
    the database, given or configured, is left out. When both are given,
    they take precedence over the mapper's overrides. *)
Theorem source_to_urn_without_schema `{Environment} (self : UrnMapper)
    (source_name : string) (source_database source_schema : option string) :
  (opt_truthy source_schema = false →
   opt_truthy (custom_schema self) = false →
   source_to_urn self source_name source_database source_schema
   = build_urn self (_normalize_name self source_name))
  ∧ (∀ db sc,
       source_database = Some db → source_schema = Some sc →
       Str.truthy db = true → Str.truthy sc = true →
       source_to_urn self source_name source_database source_schema
       = build_urn self
           (_normalize_name self db +:+ "." +:+ _normalize_name self sc
            +:+ "." +:+ _normalize_name self source_name)).
Proof.
  split.
  - intros Hs Hcs. unfold source_to_urn.
    rewrite (opt_or_falsy_l _ _ Hs), (opt_or_str_falsy _ _ Hcs). simpl.
    by rewrite andb_false_r.
  - intros db sc -> -> Hdb Hsc. unfold source_to_urn, opt_or. simpl.
    by repeat (progress (rewrite ?Hdb, ?Hsc, ?_normalize_name_truthy; simpl)).
Qed.

Lemma source_to_urn_without_schema_witness :
  @source_to_urn no_sdk (UrnMapper_init "snowflake" "PROD" None None None)
    "customers" (Some "RAW_DB") None
  = "urn:li:dataset:(urn:li:dataPlatform:snowflake,CUSTOMERS,PROD)".
Proof.
  destruct (@source_to_urn_without_schema no_sdk
              (UrnMapper_init "snowflake" "PROD" None None None)
              "customers" (Some "RAW_DB") None) as [Hdrop _].
  exact (Hdrop eq_refl eq_refl).
Defined.

(** X10: models that agree on database and schema and whose names are equal
    after the platform's casing get the same identifier; on a platform that
    normalizes case, names that differ in case only collide. *)
Theorem normalized_names_collide `{Environment} (self : UrnMapper)
    (m1 m2 : DbtModel) :
  database m1 = database m2 →
  schema m1 = schema m2 →
  _normalize_name self (name m1) = _normalize_name self (name m2) →
  model_to_urn self m1 = model_to_urn self m2.
Proof.
  intros Hdb Hsc Hn. unfold model_to_urn. f_equal.
  rewrite !get_dataset_name_join.
  unfold name_components, raw_components, effective_database,
    effective_schema.
  rewrite Hdb, Hsc.
  destruct (String.eqb (platform self) "bigquery"
            || Str.truthy
                 (opt_or_str (opt_or (custom_database self) (database m2)) ""));
    simpl; by rewrite Hn.
Qed.

Lemma normalized_names_collide_witness :
  @model_to_urn no_sdk (UrnMapper_init "snowflake" "PROD" None None None)
    dim_customers
  = @model_to_urn no_sdk (UrnMapper_init "snowflake" "PROD" None None None)
      {| unique_id := "model.shop.dim_customers_v2"; name := "DIM_customers";
         database := Some "Analytics_DB"; schema := "Marts";
         description := None; resource_type := "model";
         package_name := "shop"; path := "marts/dim_customers_v2.sql";
         original_file_path := "models/marts/dim_customers_v2.sql";
         depends_on := []; model_tags := []; meta := []; columns := [];
         config := [] |}.
Proof.
  exact (@normalized_names_collide no_sdk
           (UrnMapper_init "snowflake" "PROD" None None None) dim_customers _
           eq_refl eq_refl eq_refl).
Defined.

(** ** What [parse_urn] accepts (datahub/urn_mapper.py) *)

Section RegexSoundness.
Import Str StrFacts.

Lemma star_not_sound {R} c (k : string → string → option R) s acc r :
  star_not c k acc s = Some r →
  ∃ t rest, s = t +:+ rest ∧ lacks c t = true ∧ k (acc +:+ t) rest = Some r.
Proof.
  revert acc. induction s as [|a s IH]; intros acc Hs; simpl in Hs.
  - exists "", "". by rewrite (app_nil_r acc).
  - destruct (Ascii.eqb a c) eqn:Ha.
    + exists "", (String a s). by rewrite (app_nil_r acc).
    + destruct (star_not c k (acc +:+ String a "") s) as [r'|] eqn:Hrec.
      * inversion Hs; subst r'.
        destruct (IH _ Hrec) as (t & rest & -> & Ht & Hk).
        exists (String a t), rest. split; [done|]. split.
        -- unfold lacks in *. simpl. by rewrite Ha, Ht.
        -- by rewrite app_assoc in Hk.
      * exists "", (String a s). by rewrite (app_nil_r acc).
Qed.

Lemma plus_not_sound {R} c (k : string → string → option R) s r :
  plus_not c k s = Some r →
  ∃ t rest, s = t +:+ rest ∧ truthy t = true ∧ lacks c t = true
            ∧ k t rest = Some r.
Proof.
  unfold plus_not. destruct s as [|a s]; [done|].
  destruct (Ascii.eqb a c) eqn:Ha; [done|].
  intros (t & rest & -> & Ht & Hk)%star_not_sound.
  exists (String a t), rest. split; [done|]. split; [done|]. split; [|done].
  unfold lacks in *. simpl. by rewrite Ha, Ht.
Qed.

Lemma re_match_urn_pattern_sound s groups :
  re_match urn_pattern s = Some groups →
  ∃ p n e tail,
    groups = [p; n; e]
    ∧ s = "urn:li:dataset:(urn:li:dataPlatform:" +:+ p +:+ "," +:+ n
          +:+ "," +:+ e +:+ ")" +:+ tail
    ∧ truthy p = true ∧ lacks "," p = true
    ∧ truthy n = true ∧ lacks "," n = true
    ∧ truthy e = true ∧ lacks ")" e = true.
Proof.
  unfold re_match, urn_pattern. cbn [re_match_from].
  destruct (strip_prefix "urn:li:dataset:(urn:li:dataPlatform:" s)
    as [s1|] eqn:H1; [|done].
  apply strip_prefix_Some in H1 as ->.
  intros (p & s2 & -> & Hp1 & Hp2 & Hk)%plus_not_sound.
  destruct (strip_prefix "," s2) as [s3|] eqn:H2; [|done].
  apply strip_prefix_Some in H2 as ->.
  apply plus_not_sound in Hk as (n & s4 & -> & Hn1 & Hn2 & Hk).
  destruct (strip_prefix "," s4) as [s5|] eqn:H3; [|done].
  apply strip_prefix_Some in H3 as ->.
  apply plus_not_sound in Hk as (e & s6 & -> & He1 & He2 & Hk).
  destruct (strip_prefix ")" s6) as [tail|] eqn:H4; [|done].
  apply strip_prefix_Some in H4 as ->.
  inversion Hk; subst groups.
  by exists p, n, e, tail.
Qed.
End RegexSoundness.

(** X11: [parse_urn] returns its three components either all empty or all
    non-empty; in the second case the platform and the name hold no comma,
    the environment no closing parenthesis, and the string parsed starts
    with the identifier that the template builds from them, so that
    building again from the components gives back that start. *)
Theorem parse_urn_sound (text : string) :
  parse_urn text = [("platform", ""); ("name", ""); ("env", "")]
  ∨ ∃ p n e tail,
      parse_urn text = [("platform", p); ("name", n); ("env", e)]
      ∧ Str.truthy p = true ∧ Str.lacks "," p = true
      ∧ Str.truthy n = true ∧ Str.lacks "," n = true
      ∧ Str.truthy e = true ∧ Str.lacks ")" e = true
      ∧ text
        = _build_urn_manual
            {| platform := p; env := e; platform_instance := None;
               custom_database := None; custom_schema := None |} n
          +:+ tail.
Proof.
  unfold parse_urn. destruct (re_match urn_pattern text) as [groups|] eqn:Hm.
  - apply re_match_urn_pattern_sound in Hm
      as (p & n & e & tail & -> & -> & Hp1 & Hp2 & Hn1 & Hn2 & He1 & He2).
    right. exists p, n, e, tail. repeat split; try done.
    unfold _build_urn_manual. simpl. by rewrite !StrFacts.app_assoc.
  - by left.
Qed.

(** ** Identifiers do not collide by construction
       (datahub/urn_mapper.py) *)

Lemma str_length_app a b :
  String.length (a +:+ b) = (String.length a + String.length b)%nat.
Proof.
  induction a as [|c a IH]; [done|]. rewrite StrFacts.app_cons. simpl.
  by rewrite IH.
Qed.

Lemma str_app_inv_tail a b s : a +:+ s = b +:+ s → a = b.
Proof.
  revert b. induction a as [|c a IH]; intros [|d b] Heq.
  - done.
  - apply (f_equal String.length) in Heq.
    rewrite !str_length_app in Heq. simpl in Heq. lia.
  - apply (f_equal String.length) in Heq.
    rewrite !str_length_app in Heq. simpl in Heq. lia.
  - rewrite !StrFacts.app_cons in Heq. inversion Heq; subst.
    f_equal. by apply IH.
Qed.

Lemma str_app_inv_head s a b : s +:+ a = s +:+ b → a = b.
Proof. apply (String.app_inj s). Qed.

(** X12: for one mapper, the template gives two dataset names the same
    identifier only when they are the same name. *)
Theorem build_urn_manual_injective (self : UrnMapper) (a b : string) :
  _build_urn_manual self a = _build_urn_manual self b ↔ a = b.
Proof.
  split; [|by intros ->]. unfold _build_urn_manual.
  destruct (opt_truthy (platform_instance self)).
  - intros Heq. do 5 apply str_app_inv_head in Heq.
    by apply (str_app_inv_tail _ _ ("," +:+ env self +:+ ")")).
  - intros Heq. do 3 apply str_app_inv_head in Heq.
    by apply (str_app_inv_tail _ _ ("," +:+ env self +:+ ")")).
Qed.

(** ** Dictionaries *)

Lemma dict_get_set_eq {V} k (v : V) d : dict_get k (dict_set k v d) = Some v.
Proof.
  induction d as [|[k' v'] d IH]; simpl.
  - by rewrite String.eqb_refl.
  - destruct (String.eqb k' k) eqn:Hk; simpl; by rewrite Hk.
Qed.

Lemma dict_get_set_ne {V} k k' (v : V) d :
  k ≠ k' → dict_get k' (dict_set k v d) = dict_get k' d.
Proof.
  intros Hne. induction d as [|[k0 v0] d IH]; simpl.
  - by apply String.eqb_neq in Hne as ->.
  - destruct (String.eqb k0 k) eqn:Hk; simpl; [|by rewrite IH].
    apply String.eqb_eq in Hk as ->. by apply String.eqb_neq in Hne as ->.
Qed.

Lemma dict_set_keys_NoDup {V} k (v : V) d :
  NoDup (dict_keys d) → NoDup (dict_keys (dict_set k v d)).
Proof.
  intros Hnd. rewrite dict_keys_set. case_bool_decide as Hin; [done|].
  apply NoDup_app. split; [done|]. split; [|apply NoDup_singleton].
  by intros x Hx ->%list_elem_of_singleton.
Qed.

(** ** Fetching statuses (datahub/client.py) *)

Lemma batch_fold_get client (urns : list string) (acc : statuses) u :
  dict_get u
    (foldl
       (λ results urn,
          match get_governance_status client urn with
          | Ok st => dict_set urn st results
          | Raise _ => dict_set urn (status_default urn false) results
          end)
       acc urns)
  = if bool_decide (u ∈ urns) then Some (fetched_status client u)
    else dict_get u acc.
Proof.
  revert acc. induction urns as [|a urns IH]; intros acc; simpl; [done|].
  rewrite IH. case_bool_decide as Hin.
  - rewrite bool_decide_eq_true_2; [done|by right].
  - case_bool_decide as Hin'.
    + apply elem_of_cons in Hin' as [->|?]; [|done].
      unfold fetched_status.
      destruct (get_governance_status client a); apply dict_get_set_eq.
    + assert (a ≠ u) by (intros ->; apply Hin'; left).
      destruct (get_governance_status client a); by apply dict_get_set_ne.
Qed.

Lemma batch_get client (urns : list string) u :
  dict_get u (get_governance_status_batch client urns)
  = if bool_decide (u ∈ urns) then Some (fetched_status client u) else None.
Proof. unfold get_governance_status_batch. by rewrite batch_fold_get. Qed.

(** X13: a batch holds one entry for every identifier asked for, also when
    identifiers are repeated, and nothing else. The entry is the status the
    client returns for the identifier, or, when that fetch raises, the
    status of a dataset that does not exist. *)
Theorem batch_lookup (client : DataHubClient) (urns : list string)
    (u : string) :
  let batch := get_governance_status_batch client urns in
  NoDup (dict_keys batch)
  ∧ (u ∈ dict_keys batch ↔ u ∈ urns)
  ∧ dict_get u batch
    = if bool_decide (u ∈ urns) then
        Some match get_governance_status client u with
             | Ok st => st
             | Raise _ =>
                 {| urn := u; exists_ := false; has_owner := false;
                    has_description := false; has_domain := false;
                    has_tags := false; is_deprecated := false; owners := [];
                    domain := None; tags := []; st_description := None;
                    deprecation_note := None |}
             end
      else None.
Proof.
  intros batch.
  assert (Hkeys : ∀ {V} (d : list (string * V)) k,
            k ∈ dict_keys d ↔ is_Some (dict_get k d)).
  { intros V d k. induction d as [|[k' v'] d IH]; simpl.
    - split; [by intros ?%elem_of_nil|by intros [? ?]].
    - destruct (String.eqb k' k) eqn:Hk.
      + apply String.eqb_eq in Hk as ->. split; [eauto|left].
      + apply String.eqb_neq in Hk. rewrite <- IH. split.
        * by intros [?|?]%elem_of_cons.
        * by right. }
  split; [|split].
  - unfold batch, get_governance_status_batch.
    assert (Hgen : ∀ acc : statuses, NoDup (dict_keys acc) →
              NoDup (dict_keys
                (foldl
                   (λ results urn,
                      match get_governance_status client urn with
                      | Ok st => dict_set urn st results
                      | Raise _ =>
                          dict_set urn (status_default urn false) results
                      end)
                   acc urns))).
    { induction urns as [|a urns IH]; intros acc Hacc; [done|]. simpl.
      apply IH.
      destruct (get_governance_status client a);
        by apply dict_set_keys_NoDup. }
    apply Hgen. constructor.
  - rewrite Hkeys. unfold batch. rewrite batch_get.
    case_bool_decide as Hin; split; [done|eauto|by intros [? ?]|done].
  - unfold batch. by rewrite batch_get.
Qed.

Lemma mock_never_raises mock_data u :
  ∃ st, get_governance_status (MockDataHubClient mock_data) u = Ok st.
Proof. simpl. destruct (dict_get u mock_data); eauto. Qed.

(** X14: the mock client never raises. After [add_mock_dataset(status)] it
    answers [status] for the identifier of [status] and what it answered
    before for any other; for an identifier it does not know it answers a
    dataset that does not exist. When its data was filled by
    [add_mock_dataset] only, every answer carries the identifier asked
    for. *)
Theorem mock_client_spec
    (mock_data : list (string * DatasetGovernanceStatus))
    (status : DatasetGovernanceStatus) (u : string)
    (added : list DatasetGovernanceStatus) :
  let mock_data' := add_mock_dataset mock_data status in
  get_governance_status (MockDataHubClient mock_data') (urn status)
  = Ok status
  ∧ mock_dataset_exists mock_data' (urn status) = true
  ∧ (u ≠ urn status →
     get_governance_status (MockDataHubClient mock_data') u
     = get_governance_status (MockDataHubClient mock_data) u)
  ∧ (mock_dataset_exists mock_data u = false →
     get_governance_status (MockDataHubClient mock_data) u
     = Ok (status_default u false))
  ∧ (∃ st, get_governance_status (MockDataHubClient mock_data) u = Ok st)
  ∧ (∀ st,
       get_governance_status
         (MockDataHubClient (foldl add_mock_dataset [] added)) u = Ok st →
       urn st = u).
Proof.
  intros mock_data'. split; [|split; [|split; [|split; [|split]]]].
  - unfold mock_data', add_mock_dataset. simpl. by rewrite dict_get_set_eq.
  - unfold mock_data', add_mock_dataset, mock_dataset_exists.
    by rewrite dict_get_set_eq.
  - intros Hne. unfold mock_data', add_mock_dataset. simpl.
    by rewrite dict_get_set_ne.
  - unfold mock_dataset_exists. simpl. by destruct (dict_get u mock_data).
  - simpl. destruct (dict_get u mock_data); eauto.
  - assert (Hinv : ∀ d : list (string * DatasetGovernanceStatus),
              (∀ k st, dict_get k d = Some st → urn st = k) →
              ∀ k st, dict_get k (foldl add_mock_dataset d added) = Some st →
                urn st = k).
    { induction added as [|a l IH]; intros d Hd k st; simpl; [apply Hd|].
      apply IH. intros k' st'. unfold add_mock_dataset.
      destruct (decide (urn a = k')) as [<-|Hne].
      - rewrite dict_get_set_eq. by intros [= <-].
      - rewrite dict_get_set_ne by done. apply Hd. }
    intros st. simpl.
    destruct (dict_get u (foldl add_mock_dataset [] added)) as [st'|] eqn:Hg.
    + intros [= <-]. by apply (Hinv [] (λ _ _ H, ltac:(done)) u st').
    + by intros [= <-].
Qed.

Lemma mock_client_spec_witness :
  get_governance_status
    (MockDataHubClient
       (add_mock_dataset shop_catalog (status_default "urn:x" true)))
    dim_customers_urn
  = get_governance_status (MockDataHubClient shop_catalog) dim_customers_urn.
Proof.
  destruct (mock_client_spec shop_catalog (status_default "urn:x" true)
              dim_customers_urn []) as (_ & _ & Hother & _).
  by apply Hother.
Defined.

(** ** More on [validate] (rules/engine.py) *)

Lemma urns_to_fetch_elem `{Environment} self (ms : list DbtModel) u :
  u ∈ urns_to_fetch self ms
  ↔ ∃ model, model ∈ ms
      ∧ (u = model_to_urn (urn_mapper self) model
         ∨ ∃ dep_id dep_model,
             dep_id ∈ depends_on model
             ∧ get_model (manifest self) dep_id = Some dep_model
             ∧ u = model_to_urn (urn_mapper self) dep_model).
Proof.
  unfold urns_to_fetch. rewrite urns_of_models. split.
  - by intros [?%elem_of_empty|?].
  - by right.
Qed.

(** X15: in [validate], the status handed to the rules for a selected model
    is the one the client returns for the model's identifier; when that
    fetch raises it is the status of a dataset that does not exist, with
    the model's identifier. The same holds for the entry of every
    dependency that resolves. *)
Theorem validate_status_failsafe `{Environment} (self : GovernanceEngine)
    (model : DbtModel) :
  model ∈ models_to_validate self →
  let all_statuses :=
    _fetch_all_governance_statuses self (models_to_validate self) in
  let own := model_to_urn (urn_mapper self) model in
  status_of all_statuses own
  = match get_governance_status (datahub_client self) own with
    | Ok st => st
    | Raise _ => status_default own false
    end
  ∧ ∀ dep_id dep_model,
      dep_id ∈ depends_on model →
      get_model (manifest self) dep_id = Some dep_model →
      let u := model_to_urn (urn_mapper self) dep_model in
      dict_get u all_statuses
      = Some match get_governance_status (datahub_client self) u with
             | Ok st => st
             | Raise _ => status_default u false
             end.
Proof.
  intros Hsel all_statuses own. split.
  - unfold status_of, all_statuses, _fetch_all_governance_statuses.
    rewrite batch_get, bool_decide_eq_true_2; [done|].
    apply elem_of_elements, urns_to_fetch_elem. exists model.
    split; [done|by left].
  - intros dep_id dep_model Hdep Hget u.
    unfold all_statuses, _fetch_all_governance_statuses.
    rewrite batch_get, bool_decide_eq_true_2; [done|].
    apply elem_of_elements, urns_to_fetch_elem. exists model.
    split; [done|]. right. by exists dep_id, dep_model.
Qed.

Lemma validate_status_failsafe_witness :
  status_of
    (@_fetch_all_governance_statuses no_sdk unreachable_engine
       (@models_to_validate no_sdk unreachable_engine))
    fct_orders_urn
  = status_default fct_orders_urn false.
Proof.
  refine (proj1 (@validate_status_failsafe no_sdk unreachable_engine
                   fct_orders _)).
  right. left.
Defined.

(** X16: the report of [validate] counts the selected models in
    [total_models_checked] and one check per selected model and rule in
    [total_checks]; [errors] and [warnings] are the numbers of results that
    [get_errors()] and [get_warnings()] return. With no rule enabled the
    report is empty and successful. *)
Theorem validate_counters `{Environment} (self : GovernanceEngine) :
  let report := validate self in
  total_models_checked report = Z.of_nat (length (models_to_validate self))
  ∧ total_checks report
    = Z.of_nat (length (models_to_validate self) * length (_rules self))
  ∧ total_checks report = Z.of_nat (length (results report))
  ∧ errors report = Z.of_nat (length (get_errors report))
  ∧ warnings report = Z.of_nat (length (get_warnings report))
  ∧ (_rules self = [] → results report = [] ∧ is_successful report = true).
Proof.
  intros report.
  pose proof (validate_add_results self) as Hv. cbv zeta in Hv.
  pose proof (validate_results self) as Hr. cbv zeta in Hr.
  fold report in Hr.
  set (outs := flat_map
         (λ model,
            List.map
              (outcome self
                 (_fetch_all_governance_statuses self
                    (models_to_validate self)) model) (_rules self))
         (models_to_validate self)) in *.
  assert (Hlen : length outs
                 = (length (models_to_validate self) * length (_rules self))%nat).
  { apply flat_map_length_uniform. intros m. by rewrite length_map. }
  destruct (add_results_counters
              (set_total_models_checked
                 (Z.of_nat (length (models_to_validate self)))
                 ValidationReport_new) outs) as (He & Hw & _ & Ht).
  rewrite <- Hv in He, Hw, Ht. fold report in He, Hw, Ht.
  simpl in He, Hw, Ht.
  unfold get_errors, get_warnings. rewrite Hr.
  split; [apply validate_total_models_checked|].
  split; [by rewrite Ht, Hlen|]. split; [by rewrite Ht|].
  split; [by rewrite He|]. split; [by rewrite Hw|].
  intros Hnone.
  assert (Houts : outs = []).
  { unfold outs. rewrite Hnone. simpl. clear.
    by induction (models_to_validate self). }
  split; [done|]. unfold is_successful, has_errors. rewrite He, Houts. done.
Qed.

Lemma validate_counters_witness :
  total_checks (@validate no_sdk shop_engine) = 4
  ∧ total_models_checked (@validate no_sdk shop_engine) = 2.
Proof.
  destruct (@validate_counters no_sdk shop_engine) as (Hm & Ht & _).
  split; [exact Ht|exact Hm].
Defined.

(** ** More on [validate_single_model] (rules/engine.py) *)

Section SingleModel.
Context `{Environment}.

Lemma dependency_urns_elem self deps u :
  u ∈ dependency_urns self deps
  ↔ ∃ dep_id dep_model,
      dep_id ∈ deps
      ∧ get_model (manifest self) dep_id = Some dep_model
      ∧ u = model_to_urn (urn_mapper self) dep_model.
Proof.
  unfold dependency_urns. rewrite list_elem_of_In, List.in_flat_map. split.
  - intros (d & Hd & Hin). destruct (get_model (manifest self) d) as [dm|] eqn:Hg;
      [|done].
    destruct Hin as [<-|[]]. exists d, dm. split; [by apply list_elem_of_In|done].
  - intros (d & dm & Hd & Hg & ->). exists d.
    split; [by apply list_elem_of_In|]. rewrite Hg. by left.
Qed.

Lemma urns_to_fetch_single self model u :
  u ∈ urns_to_fetch self [model]
  ↔ u = model_to_urn (urn_mapper self) model
    ∨ u ∈ dependency_urns self (depends_on model).
Proof.
  rewrite urns_to_fetch_elem, dependency_urns_elem. split.
  - by intros (m & ->%list_elem_of_singleton & Hm).
  - intros Hu. exists model. split; [left|done].
Qed.

Lemma fetch_dependencies_raises self (acc : statuses) deps e :
  fetch_dependencies self acc deps = Raise e →
  ∃ u, u ∈ dependency_urns self deps
       ∧ get_governance_status (datahub_client self) u = Raise e.
Proof.
  revert acc. induction deps as [|d deps IH]; intros acc Hf; simpl in Hf;
    [done|].
  unfold dependency_urns. simpl.
  destruct (get_model (manifest self) d) as [dm|] eqn:Hd.
  - destruct (get_governance_status (datahub_client self)
                (model_to_urn (urn_mapper self) dm)) as [st|e'] eqn:Hg.
    + destruct (IH _ Hf) as (u & Hu & Hue). exists u. split; [by right|done].
    + inversion Hf; subst. eexists. split; [left|done].
  - destruct (IH _ Hf) as (u & Hu & Hue). by exists u.
Qed.

Lemma fetch_dependencies_ok self (acc : statuses) deps :
  (∀ u, u ∈ dependency_urns self deps →
     ∃ st, get_governance_status (datahub_client self) u = Ok st) →
  ∃ all_statuses,
    fetch_dependencies self acc deps = Ok all_statuses
    ∧ ∀ u, dict_get u all_statuses
           = if bool_decide (u ∈ dependency_urns self deps)
             then Some (fetched_status (datahub_client self) u)
             else dict_get u acc.
Proof.
  revert acc. induction deps as [|d deps IH]; intros acc Hok.
  - exists acc. by split.
  - unfold dependency_urns in Hok |- *. simpl in Hok |- *.
    destruct (get_model (manifest self) d) as [dm|] eqn:Hd.
    + destruct (Hok (model_to_urn (urn_mapper self) dm)) as [st Hst]; [left|].
      rewrite Hst.
      destruct (IH (dict_set (model_to_urn (urn_mapper self) dm) st acc))
        as (all & Hall & Hget).
      { intros u Hu. apply Hok. by right. }
      exists all. split; [done|]. intros u. rewrite Hget.
      fold (dependency_urns self deps). case_bool_decide as Hin.
      * rewrite bool_decide_eq_true_2; [done|by right].
      * case_bool_decide as Hin'.
        -- apply elem_of_cons in Hin' as [->|?]; [|done].
           rewrite dict_get_set_eq. unfold fetched_status. by rewrite Hst.
        -- apply dict_get_set_ne. intros <-. apply Hin'. left.
    + destruct (IH acc) as (all & Hall & Hget).
      { intros u Hu. by apply Hok. }
      by exists all.
Qed.
End SingleModel.

Lemma fetch_dependencies_ok_inv `{Environment} self (acc : statuses) deps
    all_statuses :
  fetch_dependencies self acc deps = Ok all_statuses →
  ∀ u, u ∈ dependency_urns self deps →
    ∃ st, get_governance_status (datahub_client self) u = Ok st.
Proof.
  revert acc. unfold dependency_urns.
  induction deps as [|d deps IH]; intros acc Hf u Hu; simpl in *;
    [by apply elem_of_nil in Hu|].
  destruct (get_model (manifest self) d) as [dm|].
  - destruct (get_governance_status (datahub_client self)
                (model_to_urn (urn_mapper self) dm)) as [st|] eqn:Hg; [|done].
    apply elem_of_cons in Hu as [->|Hu]; [eauto|]. by apply (IH _ Hf).
  - by apply (IH _ Hf).
Qed.

Lemma run_rules_results `{Environment} self model status
    (all_statuses : statuses) report rules :
  foldl (run_rule self model status all_statuses) report rules
  = add_results report
      (List.map
         (λ rule,
            match
              br_validate rule model status (manifest self) all_statuses
            with
            | Ok result => result
            | Raise e => rule_error rule model e
            end)
         rules).
Proof.
  revert report. induction rules as [|r rules IH]; intros report; [done|].
  simpl. rewrite IH. f_equal. unfold run_rule.
  by destruct (br_validate r model status (manifest self) all_statuses).
Qed.

(** X17: for a model that exists, [validate_single_model] raises exactly
    when the client raises for the identifier of the model or of one of its
    dependencies that resolve (the identifiers that [validate] would fetch
    for it, where the same failure only yields a dataset that does not
    exist); an error on the model's own identifier is the one raised. *)
Theorem validate_single_model_raises `{Environment} (self : GovernanceEngine)
    (model_name : string) (model : DbtModel) :
  get_model_by_name (manifest self) model_name = Some model →
  ((∃ e, validate_single_model self model_name = Raise e)
   ↔ ∃ u e, u ∈ urns_to_fetch self [model]
       ∧ get_governance_status (datahub_client self) u = Raise e)
  ∧ ∀ e, get_governance_status (datahub_client self)
           (model_to_urn (urn_mapper self) model) = Raise e →
         validate_single_model self model_name = Raise e.
Proof.
  intros Hfound. unfold validate_single_model. rewrite Hfound. split.
  - destruct (get_governance_status (datahub_client self)
                (model_to_urn (urn_mapper self) model)) as [status|e0] eqn:Hown.
    + destruct (fetch_dependencies self
                  [(model_to_urn (urn_mapper self) model, status)]
                  (depends_on model)) as [all|e1] eqn:Hdeps.
      * split; [by intros [? ?]|]. intros (u & e & Hu & Hue). exfalso.
        apply urns_to_fetch_single in Hu as [->|Hu]; [congruence|].
        destruct (fetch_dependencies_ok_inv _ _ _ _ Hdeps u Hu) as [st Hst].
        congruence.
      * split; [|eauto]. intros _.
        apply fetch_dependencies_raises in Hdeps as (u & Hu & Hue).
        exists u, e1. split; [|done]. apply urns_to_fetch_single. by right.
    + split; [|eauto]. intros _.
      exists (model_to_urn (urn_mapper self) model), e0. split; [|done].
      apply urns_to_fetch_single. by left.
  - by intros e ->.
Qed.

Lemma validate_single_model_raises_witness :
  @validate_single_model no_sdk unreachable_engine "fct_orders"
  = Raise "connection refused".
Proof.
  destruct (@validate_single_model_raises no_sdk unreachable_engine
              "fct_orders" fct_orders eq_refl) as [_ Hown].
  by apply Hown.
Defined.

(** X18: for a model that exists and a client that answers for the
    identifiers of the model and of its dependencies that resolve,
    [validate_single_model] returns a report with
    [total_models_checked = 1] and one outcome per rule, in the order of
    the rules. Each rule is run on the status fetched for the model and on
    a status map that holds exactly those identifiers, each with the
    status the client returns for it. *)
Theorem validate_single_model_found `{Environment} (self : GovernanceEngine)
    (model_name : string) (model : DbtModel) :
  get_model_by_name (manifest self) model_name = Some model →
  (∀ u, u ∈ urns_to_fetch self [model] →
     ∃ st, get_governance_status (datahub_client self) u = Ok st) →
  ∃ report status all_statuses,
    validate_single_model self model_name = Ok report
    ∧ get_governance_status (datahub_client self)
        (model_to_urn (urn_mapper self) model) = Ok status
    ∧ (∀ u, dict_get u all_statuses
            = if bool_decide (u ∈ urns_to_fetch self [model])
              then Some match get_governance_status (datahub_client self) u with
                        | Ok st => st
                        | Raise _ => status_default u false
                        end
              else None)
    ∧ total_models_checked report = 1
    ∧ total_checks report = Z.of_nat (length (_rules self))
    ∧ results report
      = List.map
          (λ rule,
             match
               br_validate rule model status (manifest self) all_statuses
             with
             | Ok result => result
             | Raise e =>
                 {| rule_name := br_rule_name rule;
                    model_name := name model;
                    model_unique_id := unique_id model;
                    passed := false;
                    severity := ERROR;
                    message := "Rule execution error: " +:+ e;
                    details := [("error", VStr e)] |}
             end)
          (_rules self).
Proof.
  intros Hfound Hok. unfold validate_single_model. rewrite Hfound.
  set (own := model_to_urn (urn_mapper self) model).
  destruct (Hok own) as [status Hown].
  { apply urns_to_fetch_single. by left. }
  rewrite Hown.
  destruct (fetch_dependencies_ok self [(own, status)] (depends_on model))
    as (all & Hall & Hget).
  { intros u Hu. apply Hok, urns_to_fetch_single. by right. }
  rewrite Hall. eexists _, status, all. split; [done|]. split; [done|].
  split.
  - intros u. rewrite Hget. case_bool_decide as Hdep.
    + rewrite bool_decide_eq_true_2; [done|].
      apply urns_to_fetch_single. by right.
    + simpl. destruct (String.eqb own u) eqn:Hu.
      * apply String.eqb_eq in Hu as <-.
        rewrite bool_decide_eq_true_2; [by rewrite Hown|].
        apply urns_to_fetch_single. by left.
      * apply String.eqb_neq in Hu.
        rewrite bool_decide_eq_false_2; [done|].
        intros [?|?]%urns_to_fetch_single; [by subst|done].
  - rewrite run_rules_results.
    rewrite add_results_total_models_checked, add_results_results.
    destruct (add_results_counters
                (set_total_models_checked 1 ValidationReport_new)
                (List.map
                   (λ rule,
                      match br_validate rule model status (manifest self) all
                      with
                      | Ok result => result
                      | Raise e => rule_error rule model e
                      end) (_rules self))) as (_ & _ & _ & Ht).
    rewrite Ht, length_map. by repeat split.
Qed.

Lemma validate_single_model_found_witness :
  ∃ report status all_statuses,
    @validate_single_model no_sdk shop_engine "fct_orders" = Ok report
    ∧ get_governance_status (datahub_client shop_engine)
        (@model_to_urn no_sdk (urn_mapper shop_engine) fct_orders) = Ok status
    ∧ (∀ u, dict_get u all_statuses
            = if bool_decide (u ∈ @urns_to_fetch no_sdk shop_engine [fct_orders])
              then Some match get_governance_status (datahub_client shop_engine) u with
                        | Ok st => st
                        | Raise _ => status_default u false
                        end
              else None)
    ∧ total_models_checked report = 1
    ∧ total_checks report = Z.of_nat (length (_rules shop_engine))
    ∧ results report
      = List.map
          (λ rule,
             match
               br_validate rule fct_orders status (manifest shop_engine)
                 all_statuses
             with
             | Ok result => result
             | Raise e =>
                 {| rule_name := br_rule_name rule;
                    model_name := name fct_orders;
                    model_unique_id := unique_id fct_orders;
                    passed := false;
                    severity := ERROR;
                    message := "Rule execution error: " +:+ e;
                    details := [("error", VStr e)] |}
             end)
          (_rules shop_engine).
Proof.
  apply (@validate_single_model_found no_sdk shop_engine "fct_orders"
           fct_orders eq_refl).
  intros u _. apply mock_never_raises.
Defined.

(** ** The registry of rules (rules/engine.py, rules/builtin.py) *)

Lemma dict_get_Some_elem {V} k (v : V) d :
  dict_get k d = Some v → (k, v) ∈ d.
Proof.
  induction d as [|[k' v'] d IH]; simpl; [done|].
  destruct (String.eqb k' k) eqn:Hk.
  - apply String.eqb_eq in Hk as ->. intros [= ->]. left.
  - intros ?. right. by apply IH.
Qed.

Lemma dict_get_is_Some {V} k (d : list (string * V)) :
  is_Some (dict_get k d) ↔ str_in k (dict_keys d) = true.
Proof.
  induction d as [|[k' v'] d IH]; simpl.
  - split; [by intros [? ?]|done].
  - rewrite (String.eqb_sym k k').
    destruct (String.eqb k' k); simpl; [by split; eauto|done].
Qed.

Lemma registry_contract `{Builtins} :
  Forall
    (λ entry : string * (GovernanceRule → BaseRule),
       ∀ cfg,
         br_rule_name (entry.2 cfg) = entry.1
         ∧ br_config (entry.2 cfg) = cfg
         ∧ ∀ model status manifest all_statuses r,
             br_validate (entry.2 cfg) model status manifest all_statuses
             = Ok r →
             rule_name r = entry.1
             ∧ model_name r = name model
             ∧ model_unique_id r = unique_id model
             ∧ severity r = gr_severity cfg)
    RULE_REGISTRY.
Proof.
  unfold RULE_REGISTRY.
  repeat (apply List.Forall_cons;
          [intros cfg; split; [done|]; split; [done|]|]);
    [..|apply List.Forall_nil].
  - intros model status mf all r [= <-]. unfold require_owner_validate.
    by repeat case_match.
  - intros model status mf all r [= <-].
    unfold require_description_validate. by repeat case_match.
  - intros model status mf all r [= <-]. unfold require_domain_validate.
    by repeat case_match.
  - intros model status mf all r [= <-].
    unfold no_deprecated_upstream_validate. by repeat case_match.
  - intros model status mf all r [= <-].
    unfold upstream_must_have_owner_validate. by repeat case_match.
  - intros model status mf all r [= <-]. unfold require_tags_validate.
    by repeat case_match.
  - intros model status mf all r. simpl.
    unfold require_column_descriptions_validate.
    repeat case_match; by intros [= <-].
  - intros model status mf all r [= <-]. unfold naming_convention_validate.
    by repeat case_match.
  - intros model status mf all r [= <-].
    unfold require_materialization_validate. by repeat case_match.
  - intros model status mf all r. simpl.
    unfold max_upstream_dependencies_validate.
    repeat case_match; by intros [= <-].
  - intros model status mf all r. simpl. unfold require_pii_tag_validate.
    repeat case_match; by intros [= <-].
Qed.

(** X19: every entry of [RULE_REGISTRY] is registered under the name its
    rule reports, the names are distinct, and a result returned by a
    built-in rule carries that name, the name and the unique id of the
    model it was run on, and the severity of the rule's configuration. *)
Theorem builtin_rules_contract `{Builtins} :
  NoDup (dict_keys RULE_REGISTRY)
  ∧ length RULE_REGISTRY = 11%nat
  ∧ Forall
      (λ entry : string * (GovernanceRule → BaseRule),
         ∀ cfg,
           br_rule_name (entry.2 cfg) = entry.1
           ∧ br_config (entry.2 cfg) = cfg
           ∧ ∀ model status manifest all_statuses r,
               br_validate (entry.2 cfg) model status manifest all_statuses
               = Ok r →
               rule_name r = entry.1
               ∧ model_name r = name model
               ∧ model_unique_id r = unique_id model
               ∧ severity r = gr_severity cfg)
      RULE_REGISTRY.
Proof.
  split; [|split; [done|apply registry_contract]].
  refine (bool_decide_unpack (NoDup (dict_keys RULE_REGISTRY)) _).
  by vm_compute.
Qed.

Lemma _initialize_rules_spec
    (registry : list (string * (GovernanceRule → BaseRule)))
    (config : GovernanceConfig) :
  Forall
    (λ entry : string * (GovernanceRule → BaseRule),
       ∀ cfg, br_rule_name (entry.2 cfg) = entry.1
              ∧ br_config (entry.2 cfg) = cfg)
    registry →
  List.map (λ rule, (br_rule_name rule, br_config rule))
    (_initialize_rules registry config)
  = List.filter
      (λ entry, gr_enabled entry.2 && str_in entry.1 (dict_keys registry))
      (rules config).
Proof.
  intros Hreg. rewrite Forall_forall in Hreg. unfold _initialize_rules.
  induction (rules config) as [|[n rc] l IH]; [done|].
  cbn [flat_map]. rewrite List.map_app, IH.
  cbn [List.filter fst snd]. destruct (gr_enabled rc); simpl andb; [|done].
  destruct (dict_get n registry) as [cls|] eqn:Hget.
  - assert (Hin : str_in n (dict_keys registry) = true).
    { apply dict_get_is_Some. by rewrite Hget. }
    rewrite Hin. apply dict_get_Some_elem in Hget.
    destruct (Hreg _ Hget rc) as (Hname & Hcfg). simpl in Hname, Hcfg.
    simpl. by rewrite Hname, Hcfg.
  - assert (Hin : str_in n (dict_keys registry) = false).
    { apply not_true_iff_false. intros Hin%dict_get_is_Some.
      rewrite Hget in Hin. by destruct Hin. }
    by rewrite Hin.
Qed.

Lemma registry_names `{Builtins} :
  Forall
    (λ entry : string * (GovernanceRule → BaseRule),
       ∀ cfg, br_rule_name (entry.2 cfg) = entry.1
              ∧ br_config (entry.2 cfg) = cfg)
    RULE_REGISTRY.
Proof.
  eapply Forall_impl; [apply registry_contract|].
  intros entry Hentry cfg. destruct (Hentry cfg) as (? & ? & _). by split.
Qed.

(** X20: the rules of an engine are, in the order of the configuration,
    those entries of the configuration that are enabled and whose name is
    in [RULE_REGISTRY], each with its own configuration; a disabled rule
    and a name unknown to the registry add nothing. *)
Theorem engine_rules_of_config `{Builtins} (config : GovernanceConfig)
    (client : DataHubClient) (manifest : DbtManifest) :
  let engine := GovernanceEngine_new config client manifest in
  List.map (λ rule, (br_rule_name rule, br_config rule)) (_rules engine)
  = List.filter
      (λ entry, gr_enabled entry.2 && str_in entry.1 (dict_keys RULE_REGISTRY))
      (rules config)
  ∧ (length (_rules engine) ≤ length (rules config))%nat.
Proof.
  intros engine.
  pose proof (_initialize_rules_spec RULE_REGISTRY config registry_names)
    as Hspec.
  split; [exact Hspec|].
  change (_rules engine) with (_initialize_rules RULE_REGISTRY config).
  rewrite <- (length_map (λ rule, (br_rule_name rule, br_config rule))), Hspec.
  apply List.filter_length_le.
Qed.

Example default_engine_rules :
  List.map br_rule_name (_rules default_engine)
  = ["require_owner"; "require_description"; "no_deprecated_upstream";
     "upstream_must_have_owner"].
Proof. reflexivity. Qed.

Lemma _initialize_rules_elem
    (registry : list (string * (GovernanceRule → BaseRule)))
    (config : GovernanceConfig) (rule : BaseRule) :
  rule ∈ _initialize_rules registry config →
  ∃ n rc cls,
    (n, rc) ∈ rules config ∧ gr_enabled rc = true
    ∧ (n, cls) ∈ registry ∧ rule = cls rc.
Proof.
  unfold _initialize_rules.
  intros [[n rc] [Hin Hrule]]%list_elem_of_In%List.in_flat_map.
  destruct (gr_enabled rc) eqn:Hen; [|done].
  destruct (dict_get n registry) as [cls|] eqn:Hget; [|done].
  destruct Hrule as [<-|[]]. exists n, rc, cls.
  split; [by apply list_elem_of_In|]. split; [done|].
  split; [by apply dict_get_Some_elem|done].
Qed.

(** X21: every result in the report of [validate], for an engine built
    from a configuration, refers to a model that was selected (its name and
    unique id) and carries the name of a rule that the configuration
    enables; so a model that the patterns exclude has no result. *)
Theorem report_refers_to_selected `{Environment} `{Builtins}
    (config : GovernanceConfig) (client : DataHubClient)
    (manifest : DbtManifest) (r : ValidationResult) :
  let engine := GovernanceEngine_new config client manifest in
  r ∈ results (validate engine) →
  (∃ model,
     model ∈ dict_values (models manifest)
     ∧ _should_include_model engine model = true
     ∧ model_unique_id r = unique_id model
     ∧ model_name r = name model)
  ∧ (∃ rule_cfg,
       (rule_name r, rule_cfg) ∈ rules config
       ∧ gr_enabled rule_cfg = true)
  ∧ get_results_for_model (validate engine) (model_unique_id r) ≠ [].
Proof.
  intros engine Hin.
  assert (Hres := validate_results engine). cbv zeta in Hres.
  pose proof Hin as Hin'. rewrite Hres in Hin'.
  apply list_elem_of_In, List.in_flat_map in Hin' as (model & Hsel & Hout).
  apply List.in_map_iff in Hout as (rule & Hr & Hrule).
  apply List.filter_In in Hsel as [Hmodel Hincl].
  apply list_elem_of_In, _initialize_rules_elem in Hrule
    as (n & rc & cls & Hcfg & Hen & Hreg & ->).
  pose proof registry_contract as Hcontract.
  rewrite Forall_forall in Hcontract.
  destruct (Hcontract _ Hreg rc) as (Hname & _ & Hvalid).
  simpl in Hname, Hvalid.
  assert (Hfields : rule_name r = n ∧ model_name r = name model
                    ∧ model_unique_id r = unique_id model).
  { unfold outcome in Hr.
    destruct (br_validate (cls rc) model _ _ _) as [r'|e] eqn:Hv.
    - subst r'. by destruct (Hvalid _ _ _ _ _ Hv) as (? & ? & ? & _).
    - subst r. simpl. by rewrite Hname. }
  destruct Hfields as (Hrn & Hmn & Hid).
  split; [|split].
  - exists model. split; [by apply list_elem_of_In|done].
  - exists rc. by rewrite Hrn.
  - unfold get_results_for_model. intros Hnil.
    assert (Hmem : r ∈ List.filter
                     (λ x, String.eqb (model_unique_id x) (model_unique_id r))
                     (results (validate engine))).
    { apply list_elem_of_In, List.filter_In.
      split; [by apply list_elem_of_In|apply String.eqb_refl]. }
    rewrite Hnil in Hmem. by apply elem_of_nil in Hmem.
Qed.

Lemma report_refers_to_selected_witness :
  ∃ r model,
    results (@validate no_sdk default_engine) !! 0%nat = Some r
    ∧ model ∈ dict_values (models shop_manifest)
    ∧ model_unique_id r = unique_id model.
Proof.
  eexists.
  assert (Hfirst : results (@validate no_sdk default_engine) !! 0%nat
                   = Some (require_owner_validate
                             {| gr_name := "require_owner";
                                gr_enabled := true; gr_severity := ERROR;
                                gr_description :=
                                  Some "All models must have an owner assigned in DataHub";
                                gr_config := [] |}
                             stg_customers
                             (status_default
                                "urn:li:dataset:(urn:li:dataPlatform:snowflake,ANALYTICS_DB.STAGING.STG_CUSTOMERS,PROD)"
                                false))).
  { by vm_compute. }
  destruct (@report_refers_to_selected no_sdk plain_builtins
              GovernanceConfig_default (MockDataHubClient shop_catalog)
              shop_manifest _ (list_elem_of_lookup_2 _ _ _ Hfirst))
    as ((model & Hmodel & _ & Hid & _) & _).
  exists model. split; [exact Hfirst|]. by split.
Defined.

(** ** Datasets that do not exist (rules/builtin.py) *)

Lemma flat_map_filter {A B} (f : A → list B) (p : A → bool) (l : list A) :
  (∀ x, p x = false → f x = []) →
  flat_map f (List.filter p l) = flat_map f l.
Proof.
  intros Hf. induction l as [|x l IH]; [done|]. simpl.
  destruct (p x) eqn:Hp; simpl; rewrite IH; [done|]. by rewrite (Hf x Hp).
Qed.

Lemma deprecated_upstreams_existing model manifest (all_statuses : statuses) :
  deprecated_upstreams model manifest
    (List.filter (λ kv, exists_ kv.2) all_statuses)
  = deprecated_upstreams model manifest all_statuses.
Proof.
  unfold deprecated_upstreams. apply List.flat_map_ext. intros dep_id.
  destruct (get_model manifest dep_id); [|done].
  apply flat_map_filter. intros [u st] Hst. simpl in Hst. by rewrite Hst.
Qed.

Lemma unowned_upstreams_existing model manifest (all_statuses : statuses) :
  unowned_upstreams model manifest
    (List.filter (λ kv, exists_ kv.2) all_statuses)
  = unowned_upstreams model manifest all_statuses.
Proof.
  unfold unowned_upstreams. apply List.flat_map_ext. intros dep_id.
  destruct (get_model manifest dep_id); [|done].
  apply flat_map_filter. intros [u st] Hst. simpl in Hst. by rewrite Hst.
Qed.

(** X22: for every built-in rule, a status with [exists = false] counts as
    if all its other fields were unset: the rule returns what it returns on
    the bare status of a dataset that does not exist, with the same
    identifier; and the entries of the status map with [exists = false]
    change the result of no rule. *)
Theorem nonexistent_status_is_ignored `{Builtins} :
  Forall
    (λ entry : string * (GovernanceRule → BaseRule),
       ∀ cfg model status manifest (all_statuses : statuses),
         (exists_ status = false →
          br_validate (entry.2 cfg) model status manifest all_statuses
          = br_validate (entry.2 cfg) model
              (status_default (urn status) false) manifest all_statuses)
         ∧ br_validate (entry.2 cfg) model status manifest all_statuses
           = br_validate (entry.2 cfg) model status manifest
               (List.filter (λ kv, exists_ kv.2) all_statuses))
    RULE_REGISTRY.
Proof.
  unfold RULE_REGISTRY.
  repeat (apply List.Forall_cons;
          [intros cfg model status mf all; split; [intros Hex|]|]);
    [..|apply List.Forall_nil]; simpl; try done.
  - unfold require_owner_validate. simpl. by rewrite Hex.
  - unfold require_description_validate, urn_if_exists. simpl.
    by rewrite Hex.
  - unfold require_domain_validate. simpl. by rewrite Hex.
  - unfold no_deprecated_upstream_validate.
    by rewrite deprecated_upstreams_existing.
  - unfold upstream_must_have_owner_validate.
    by rewrite unowned_upstreams_existing.
  - unfold require_tags_validate, urn_if_exists. simpl. by rewrite Hex.
Qed.

(** ** The rule [upstream_must_have_owner] (rules/builtin.py) *)



(** ** The rule [naming_convention] (rules/builtin.py) *)

Lemma first_prefix_Some n prefixes p :
  first_prefix n prefixes = Some p → p ∈ prefixes ∧ startswith n p = true.
Proof.
  induction prefixes as [|q qs IH]; simpl; [done|].
  destruct (startswith n q) eqn:Hq.
  - intros [= <-]. split; [left|done].
  - intros [Hin Hp]%IH. split; [by right|done].
Qed.

Lemma first_prefix_None n prefixes :
  first_prefix n prefixes = None →
  ∀ p, p ∈ prefixes → startswith n p = false.
Proof.
  induction prefixes as [|q qs IH]; simpl.
  - by intros _ p ?%elem_of_nil.
  - destruct (startswith n q) eqn:Hq; [done|].
    intros Hnone p [->|Hp]%elem_of_cons; [done|by apply IH].
Qed.

(** X24: the rule passes exactly when the lowercased name of the model
    starts with one of [VALID_PREFIXES]; the prefix it reports is one the
    lowercased name starts with; and two models whose names differ in case
    only get the same verdict. *)
Theorem naming_convention_rule (cfg : GovernanceRule) (model : DbtModel) :
  let r := naming_convention_validate cfg model in
  (passed r = true
   ↔ ∃ prefix rest,
       prefix ∈ VALID_PREFIXES ∧ Str.lower (name model) = prefix +:+ rest)
  ∧ (passed r = true →
     ∃ prefix rest,
       details r = [("prefix", VStr prefix)]
       ∧ prefix ∈ VALID_PREFIXES
       ∧ Str.lower (name model) = prefix +:+ rest)
  ∧ (∀ model',
       Str.lower (name model') = Str.lower (name model) →
       passed (naming_convention_validate cfg model') = passed r).
Proof.
  intros r. unfold r, naming_convention_validate. split; [|split].
  - destruct (first_prefix (Str.lower (name model)) VALID_PREFIXES)
      as [p|] eqn:Hp; simpl.
    + apply first_prefix_Some in Hp as [Hin [rest Hrest]%startswith_spec].
      split; [|done]. intros _. by exists p, rest.
    + split; [done|]. intros (p & rest & Hin & Hrest).
      pose proof (first_prefix_None _ _ Hp p Hin) as Hno.
      assert (startswith (Str.lower (name model)) p = true)
        by (apply startswith_spec; eauto).
      congruence.
  - destruct (first_prefix (Str.lower (name model)) VALID_PREFIXES)
      as [p|] eqn:Hp; simpl; [|done].
    apply first_prefix_Some in Hp as [Hin [rest Hrest]%startswith_spec].
    intros _. by exists p, rest.
  - intros model' ->.
    by destruct (first_prefix (Str.lower (name model)) VALID_PREFIXES).
Qed.

Lemma naming_convention_rule_witness :
  passed (naming_convention_validate (rule_config "naming_convention" INFO)
            dim_customers) = true.
Proof.
  destruct (naming_convention_rule (rule_config "naming_convention" INFO)
              dim_customers) as [Hiff _].
  apply Hiff. exists "dim_", "customers". split; [|reflexivity].
  do 2 right. left.
Defined.

(** ** The rule [require_description] (rules/builtin.py) *)

Lemma take_length n s : (String.length (Py.take n s) ≤ n)%nat.
Proof.
  revert s. induction n as [|n IH]; intros [|c s]; simpl; try lia.
  specialize (IH s). lia.
Qed.

#[local] Arguments Py.take : simpl never.



(** ** The rule [require_column_descriptions] (rules/builtin.py) *)

Lemma missing_descriptions_Ok cols missing :
  missing_descriptions cols = Ok missing →
  missing = blank_columns cols
  ∧ Forall (λ col, ∃ b, description_blank col.2 = Ok b) cols.
Proof.
  revert missing. unfold blank_columns.
  induction cols as [|[c info] cols IH]; intros missing; simpl.
  - intros [= <-]. by split.
  - destruct (description_blank info) as [blank|e] eqn:Hb; [|done].
    destruct (missing_descriptions cols) as [m|e]; [|done].
    intros [= <-]. destruct (IH m eq_refl) as [-> Hall].
    split; [by destruct blank|]. constructor; [by exists blank|done].
Qed.

Lemma missing_descriptions_Raise cols e :
  missing_descriptions cols = Raise e →
  Exists (λ col, description_blank col.2 = Raise e) cols.
Proof.
  induction cols as [|[c info] cols IH]; simpl; [done|].
  destruct (description_blank info) as [blank|e'] eqn:Hb.
  - destruct (missing_descriptions cols) as [m|e']; [done|].
    intros [= ->]. right. by apply IH.
  - intros [= ->]. by left.
Qed.

Lemma blank_columns_length cols :
  (length (blank_columns cols) ≤ length cols)%nat.
Proof.
  unfold blank_columns. rewrite length_map. apply List.filter_length_le.
Qed.



(** ** The rule [max_upstream_dependencies] (rules/builtin.py) *)

(** X27: without a ["max_dependencies"] setting the rule allows 10
    dependencies, with an integer setting it allows that many: it passes
    exactly when the number of dependency ids does not exceed the limit.
    When it fails, the details list the first ids, at most 10. A setting
    that is [None], a string, a list or a dictionary makes the rule raise
    the [TypeError] of the comparison (a [value] is never a float). *)
Theorem max_upstream_dependencies_rule `{Builtins} (cfg : GovernanceRule)
    (model : DbtModel) :
  let outcome := max_upstream_dependencies_validate cfg model in
  let count := Z.of_nat (length (depends_on model)) in
  let setting := dict_get "max_dependencies" (gr_config cfg) in
  (setting = None →
   ∃ r, outcome = Ok r ∧ (passed r = true ↔ count ≤ 10))
  ∧ (∀ n, setting = Some (VInt n) →
       ∃ r, outcome = Ok r ∧ (passed r = true ↔ count ≤ n))
  ∧ (∀ v, setting = Some v → (∀ n, v ≠ VInt n) → (∀ b, v ≠ VBool b) →
       outcome
       = Raise ("'>' not supported between instances of 'int' and '"
                +:+ Py.type_name v +:+ "'"))
  ∧ (∀ r, outcome = Ok r → passed r = false →
       ∃ ids,
         dict_get "dependencies" (details r) = Some (VList (List.map VStr ids))
         ∧ ids = firstn 10 (depends_on model)
         ∧ (length ids ≤ 10)%nat).
Proof.
  intros outcome count setting.
  unfold outcome, max_upstream_dependencies_validate. fold count setting.
  split; [|split; [|split]].
  - intros ->. simpl. destruct (10 <? count) eqn:Hc; eexists;
      (split; [reflexivity|]); simpl.
    + apply Z.ltb_lt in Hc. split; [done|lia].
    + apply Z.ltb_ge in Hc. by split.
  - intros n ->. simpl. destruct (n <? count) eqn:Hc; eexists;
      (split; [reflexivity|]); simpl.
    + apply Z.ltb_lt in Hc. split; [done|lia].
    + apply Z.ltb_ge in Hc. by split.
  - intros v -> Hint Hbool. destruct v; try done.
    + by destruct (Hbool b).
    + by destruct (Hint n).
  - intros r.
    destruct (int_gt count
                match setting with Some v => v | None => VInt 10 end)
      as [[|]|e]; intros [= <-]; [|done]. simpl. intros _.
    eexists. split; [reflexivity|]. split; [done|].
    rewrite length_firstn. lia.
Qed.

Lemma max_upstream_dependencies_rule_witness :
  ∃ r,
    @max_upstream_dependencies_validate plain_builtins
      {| gr_name := "max_upstream_dependencies"; gr_enabled := true;
         gr_severity := WARNING; gr_description := None;
         gr_config := [("max_dependencies", VInt 1)] |} fct_orders
    = Ok r
    ∧ passed r = false.
Proof.
  destruct (@max_upstream_dependencies_rule plain_builtins
              {| gr_name := "max_upstream_dependencies"; gr_enabled := true;
                 gr_severity := WARNING; gr_description := None;
                 gr_config := [("max_dependencies", VInt 1)] |} fct_orders)
    as (_ & Hint & _).
  destruct (Hint 1 eq_refl) as (r & Hr & Hpass).
  exists r. split; [exact Hr|].
  destruct (passed r); [|done]. exfalso.
  assert (Hle : Z.of_nat (length (depends_on fct_orders)) ≤ 1)
    by by apply Hpass.
  simpl in Hle. lia.
Defined.


(** ** The rule [require_pii_tag] (rules/builtin.py) *)

Lemma meta_pii_Ok info b :
  meta_pii info = Ok b →
  b = marked_pii info
  ∧ ¬ ∃ v, dict_get "meta" info = Some v ∧ ∀ d, v ≠ VDict d.
Proof.
  unfold meta_pii, marked_pii.
  destruct (dict_get "meta" info) as [[]|]; try done; intros [= <-];
    (split; [done|]); intros (v & [= <-] & Hv); by eapply Hv.
Qed.

Lemma meta_pii_Raise info e :
  meta_pii info = Raise e →
  ∃ v, dict_get "meta" info = Some v ∧ ∀ d, v ≠ VDict d.
Proof.
  unfold meta_pii.
  destruct (dict_get "meta" info) as [[]|]; try done;
    intros _; eexists; by split.
Qed.

Lemma pii_columns_from_Ok cols acc l :
  pii_columns_from acc cols = Ok l →
  l = acc ++ pii_columns cols
  ∧ Forall
      (λ col, ¬ ∃ v, dict_get "meta" col.2 = Some v ∧ ∀ d, v ≠ VDict d)
      cols.
Proof.
  revert acc. induction cols as [|[c info] cols IH]; intros acc; simpl.
  - intros [= <-]. unfold pii_columns. simpl. by rewrite (app_nil_r acc).
  - destruct (meta_pii info) as [b|e] eqn:Hb; [|done].
    apply meta_pii_Ok in Hb as [-> Hdict].
    unfold pii_columns. simpl.
    destruct (marked_pii info); simpl.
    + intros [-> Hall]%IH. split; [by rewrite <- app_assoc|by constructor].
    + destruct (has_pii_indicator c); simpl.
      * intros [-> Hall]%IH.
        split; [by rewrite <- app_assoc|by constructor].
      * intros [-> Hall]%IH. split; [done|by constructor].
Qed.

Lemma pii_columns_from_Raise cols acc e :
  pii_columns_from acc cols = Raise e →
  Exists (λ col, ∃ v, dict_get "meta" col.2 = Some v ∧ ∀ d, v ≠ VDict d)
    cols.
Proof.
  revert acc. induction cols as [|[c info] cols IH]; intros acc; simpl.
  - done.
  - destruct (meta_pii info) as [b|e'] eqn:Hb.
    + destruct b; [|destruct (has_pii_indicator c)];
        intros ?%IH; by right.
    + intros _. left. by eapply meta_pii_Raise.
Qed.

Lemma str_in_map_lower x (l : list string) :
  str_in x (List.map Str.lower l) = false
  ↔ Forall (λ t, Str.lower t ≠ x) l.
Proof.
  unfold str_in. induction l as [|t l IH]; simpl.
  - split; [constructor|done].
  - rewrite orb_false_iff, IH, String.eqb_neq. split.
    + intros [Hne Hall]. constructor; [congruence|done].
    + inversion 1; subst. split; [congruence|done].
Qed.

(** X28: the rule raises exactly when the [meta] of some column is present
    and is not a dictionary. Otherwise it fails exactly when some column is
    marked with a true [meta.pii] or has a name that contains, whatever the
    case, one of the indicators, and no tag of the model is ["pii"] up to
    case; the details then list these columns in the order of the model and
    the tags of the model, and the message shows the first three columns.
    A model none of whose columns is taken for personal data passes with
    the number of its columns as details. *)
Theorem require_pii_tag_rule (cfg : GovernanceRule) (model : DbtModel) :
  let outcome := require_pii_tag_validate cfg model in
  let found := pii_columns (columns model) in
  ((∃ e, outcome = Raise e)
   ↔ Exists
       (λ col, ∃ v, dict_get "meta" col.2 = Some v ∧ ∀ d, v ≠ VDict d)
       (columns model))
  ∧ (∀ r, outcome = Ok r →
       (passed r = false
        ↔ found ≠ [] ∧ Forall (λ t, Str.lower t ≠ "pii") (model_tags model))
       ∧ (passed r = false →
          details r
          = [("pii_columns", VList (List.map VStr found));
             ("current_tags", VList (List.map VStr (model_tags model)))]
          ∧ message r
            = "Model has PII columns ("
              +:+ Str.join ", " (firstn 3 found)
              +:+ ") but is not tagged with 'pii'")
       ∧ (found = [] →
          details r
          = [("checked_columns",
              VInt (Z.of_nat (length (columns model))))])
       ∧ (passed r = true → found ≠ [] →
          details r = [("pii_columns", VList (List.map VStr found))])).
Proof.
  intros outcome found. subst outcome found.
  unfold require_pii_tag_validate.
  destruct (pii_columns_from [] (columns model)) as [l|e] eqn:Hl.
  - apply pii_columns_from_Ok in Hl as [-> Hall]. simpl app.
    split.
    + split.
      * destruct (pii_columns (columns model));
          [|destruct (str_in _ _)]; by intros [? ?].
      * intros Hex. exfalso. rewrite List.Forall_forall in Hall.
        apply List.Exists_exists in Hex as (col & Hin & Hcol).
        by eapply Hall.
    + intros r. destruct (pii_columns (columns model)) as [|c0 l0].
      * intros [= <-]. simpl. repeat split; try done. by intros [? _].
      * destruct (str_in "pii" (List.map Str.lower (model_tags model)))
          eqn:Htag; intros [= <-]; simpl.
        -- repeat split; try done. intros [_ Hno].
           apply str_in_map_lower in Hno. congruence.
        -- apply str_in_map_lower in Htag. repeat split; try done.
  - split; [|done]. split; [|eauto]. intros _.
    by eapply pii_columns_from_Raise.
Qed.

(** ** The GitHub Actions reporter (reporters/github.py) *)

Lemma lacks_app c (a b : string) :
  Str.lacks c (a +:+ b) = Str.lacks c a && Str.lacks c b.
Proof.
  unfold Str.lacks. induction a as [|x a IH]; [done|].
  change (String x a +:+ b) with (String x (a +:+ b)). simpl.
  by rewrite IH, andb_assoc.
Qed.

Lemma replace_char_lacks c (new s : string) :
  Str.lacks c new = true →
  Str.lacks c (Py.replace_char c new s) = true.
Proof.
  intros Hnew. induction s as [|x s IH]; [done|]. simpl.
  destruct (Ascii.eqb x c) eqn:Hx.
  - by rewrite lacks_app, Hnew, IH.
  - unfold Str.lacks in *. simpl. by rewrite Hx, IH.
Qed.

(** X29: for a report filled by [add_result] from a fresh one, the reporter
    writes one annotation for every result that did not pass, in the order
    of the results, then an empty line and four summary lines. A failed
    result of severity [INFO] is annotated (as a notice) although none of
    the counters of the summary counts it: the number of annotations is
    [total_checks - passed], which is [errors + warnings] plus the number
    of failed [INFO] results. Every line feed of the message is escaped, so
    that an annotation is one line whenever the names of the rule and of
    the model hold no line feed. *)
Theorem github_report_annotations (rs : list ValidationResult) :
  let report := add_results ValidationReport_new rs in
  let annotations := List.map github_annotation (failed_results report) in
  failed_results report = List.filter (λ r, negb (passed r)) rs
  ∧ firstn (length annotations) (github_report report) = annotations
  ∧ length (github_report report) = (length annotations + 5)%nat
  ∧ Z.of_nat (length annotations)
    = total_checks report - rep_passed report
  ∧ Z.of_nat (length annotations)
    = errors report + warnings report + info_failures rs
  ∧ (∀ r, ∃ line,
       github_annotation r = line +:+ newline
       ∧ (∃ level, level ∈ ["error"; "warning"; "notice"]
            ∧ Str.strip_prefix ("::" +:+ level +:+ " title=") line ≠ None)
       ∧ (Str.lacks LF (rule_name r) = true →
          Str.lacks LF (model_name r) = true →
          Str.lacks LF line = true)).
Proof.
  intros report annotations.
  assert (Hres : results report = rs) by apply add_results_results.
  assert (Hfailed : failed_results report
                    = List.filter (λ r, negb (passed r)) rs).
  { unfold failed_results. by rewrite Hres. }
  assert (Hout : github_report report
                 = annotations
                   ++ skipn (length annotations) (github_report report)
                   ∧ length (skipn (length annotations)
                               (github_report report)) = 5%nat).
  { unfold github_report, annotations, failed_results. rewrite Hres.
    assert (Hflat : flat_map
                      (λ result, if passed result then []
                                 else [github_annotation result]) rs
                    = List.map github_annotation
                        (List.filter (λ r, negb (passed r)) rs)).
    { clear. induction rs as [|x rs IH]; [done|]. simpl.
      destruct (passed x); simpl; by rewrite IH. }
    rewrite Hflat.
    set (l := List.map github_annotation _).
    rewrite skipn_app, Nat.sub_diag, skipn_all. by split. }
  destruct Hout as [Hout Hsum].
  destruct (add_results_counters ValidationReport_new rs)
    as (He & Hw & Hp & Ht).
  fold report in He, Hw, Hp, Ht. simpl in He, Hw, Hp, Ht.
  assert (Hlen : Z.of_nat (length annotations)
                 = Z.of_nat (length rs)
                   - Z.of_nat (length (List.filter passed rs))
                 ∧ Z.of_nat (length annotations)
                   = Z.of_nat (length (List.filter is_error rs))
                     + Z.of_nat (length (List.filter is_warning rs))
                     + info_failures rs).
  { unfold annotations, info_failures. rewrite length_map, Hfailed.
    clear. induction rs as [|x rs [IH1 IH2]]; [done|].
    unfold is_error, is_warning, is_info_failure in *. simpl.
    destruct (passed x), (severity x); simpl in *; lia. }
  split; [done|]. split; [|split; [|split; [|split]]].
  - rewrite Hout at 1. by rewrite firstn_app, Nat.sub_diag, firstn_all,
      app_nil_r.
  - rewrite Hout at 1. rewrite length_app. lia.
  - rewrite Ht, Hp. lia.
  - rewrite He, Hw. lia.
  - intros r. unfold github_annotation. cbv zeta.
    exists ("::" +:+ SEVERITY_LEVELS (severity r) +:+ " title="
            +:+ (rule_name r +:+ ": " +:+ model_name r) +:+ "::"
            +:+ Py.replace_char (ascii_of_nat 10) "%0A" (message r)).
    split; [by rewrite !StrFacts.app_assoc|]. split.
    + exists (SEVERITY_LEVELS (severity r)). split.
      * rewrite !elem_of_cons. destruct (severity r); simpl; auto.
      * pose proof (StrFacts.strip_prefix_app
                      ("::" +:+ SEVERITY_LEVELS (severity r) +:+ " title=")
                      ((rule_name r +:+ ": " +:+ model_name r)
                       +:+ "::"
                       +:+ Py.replace_char (ascii_of_nat 10) "%0A"
                             (message r))) as Hpre.
        rewrite !StrFacts.app_assoc in Hpre. rewrite !StrFacts.app_assoc.
        by rewrite Hpre.
    + intros Hrule Hmodel.
      pose proof (replace_char_lacks LF "%0A" (message r) eq_refl) as Hmsg.
      unfold LF in *. rewrite !lacks_app, Hrule, Hmodel, Hmsg.
      by destruct (severity r).
Qed.
